(** * agent-x: the agent facade, the schema translator and the get-tweets command

    A shallow embedding of

    - [src/agents/Agent.ts]: the [Agent] constructor and [jsonSchemaToZod];
    - [src/models/clients/OpenAiClient.ts]: the [OpenAIClient] constructor;
    - the [get-tweets] command handler ([twitterGetTweets.handler]).

    JavaScript values are an inductive type, exceptions are an explicit
    [Completion], the effects of the constructor are a log of [Event]s, and the
    validators that [jsonSchemaToZod] builds with the zod library are a syntax
    tree [ZodType] with zod 3's parsing rule [accepts]. *)

From Stdlib Require Import PrimFloat.
From stdpp Require Import base option list strings pretty gmap.

Set Warnings "-register-all,-inexact-float".
Open Scope string_scope.

(** ** JavaScript values *)

(** The values a YAML or JSON document produces, plus [undefined].  Numbers are
    IEEE-754 doubles.  An object is the list of its own enumerable properties,
    in [Object.entries] order.  Property names are ordinary names: the names
    that [Object.prototype] answers for ([constructor], [toString],
    [__proto__], ...) are not used as keys. *)
Inductive JValue : Type :=
| JUndefined
| JNull
| JBool (b : bool)
| JNum (n : float)
| JStr (s : string)
| JArr (items : list JValue)
| JObj (fields : list (string * JValue)).

(** [ToBoolean]: what [if (v)], [!v] and [v ? a : b] test. *)
Definition truthy (v : JValue) : bool :=
  match v with
  | JUndefined | JNull => false
  | JBool b => b
  | JNum n => negb (PrimFloat.eqb n 0%float) && negb (PrimFloat.is_nan n)
  | JStr s => negb (String.eqb s "")
  | JArr _ | JObj _ => true
  end.

(** [typeof v]; arrays and [null] are ["object"]s too. *)
Definition typeof (v : JValue) : string :=
  match v with
  | JUndefined => "undefined"
  | JNull | JArr _ | JObj _ => "object"
  | JBool _ => "boolean"
  | JNum _ => "number"
  | JStr _ => "string"
  end.

Definition Array_isArray (v : JValue) : bool :=
  match v with JArr _ => true | _ => false end.

(** [v === s] for a string literal [s] (the comparison a [switch] makes). *)
Definition strict_eq_str (v : JValue) (s : string) : bool :=
  match v with JStr t => String.eqb t s | _ => false end.

(** ** Property tables *)

(** First binding of [k]. *)
Fixpoint assoc {A : Type} (k : string) (o : list (string * A)) : option A :=
  match o with
  | [] => None
  | (k', x) :: o' => if String.eqb k' k then Some x else assoc k o'
  end.

(** [o[k] = x]: overwrite the binding of [k] in place, or add it at the end. *)
Fixpoint assign {A : Type} (k : string) (x : A) (o : list (string * A))
  : list (string * A) :=
  match o with
  | [] => [(k, x)]
  | (k', y) :: o' =>
      if String.eqb k' k then (k, x) :: o' else (k', y) :: assign k x o'
  end.

(** ** Exceptions *)

Inductive Exn : Type :=
| Error (message : string)
| TypeError (message : string)
| RangeError (message : string).

(** [`${error}`] for an exception object: [Error.prototype.toString]. *)
Definition Exn_toString (e : Exn) : string :=
  let render (name message : string) :=
    if String.eqb message "" then name else name +:+ ": " +:+ message in
  match e with
  | Error m => render "Error" m
  | TypeError m => render "TypeError" m
  | RangeError m => render "RangeError" m
  end.

(** The outcome of evaluating an expression or a block: a value or a throw. *)
Inductive Completion (A : Type) : Type :=
| Normal (a : A)
| Throw (e : Exn).
Arguments Normal {A} a.
Arguments Throw {A} e.

#[global] Instance Completion_ret : MRet Completion := fun _ a => Normal a.
#[global] Instance Completion_bind : MBind Completion := fun _ _ k m =>
  match m with
  | Normal a => k a
  | Throw e => Throw e
  end.

(** [try { body } catch (error) { handler }]. *)
Definition try_catch {A : Type} (body : Completion A)
    (handler : Exn -> Completion A) : Completion A :=
  match body with
  | Normal a => Normal a
  | Throw e => handler e
  end.

(** ** Property access *)

(** [v.k] on a value that is neither [null] nor [undefined].  None of the
    names the program reads ([type], [properties], [required], [description],
    [items]) exists on the prototypes of strings, numbers, booleans or arrays,
    so only an object's own properties can answer. *)
Definition get (v : JValue) (k : string) : JValue :=
  match v with
  | JObj fields => default JUndefined (assoc k fields)
  | _ => JUndefined
  end.

(** [v.k] in general: reading a property of [null] or [undefined] throws. *)
Definition getProp (v : JValue) (k : string) : Completion JValue :=
  match v with
  | JUndefined =>
      Throw (TypeError ("Cannot read properties of undefined (reading '"
                        +:+ k +:+ "')"))
  | JNull =>
      Throw (TypeError ("Cannot read properties of null (reading '"
                        +:+ k +:+ "')"))
  | _ => Normal (get v k)
  end.

(** [i]-th index key and element, for array-like values. *)
Fixpoint indexed {A : Type} (i : nat) (l : list A) : list (string * A) :=
  match l with
  | [] => []
  | x :: l' => (pretty i, x) :: indexed (S i) l'
  end.

Fixpoint characters (s : string) : list JValue :=
  match s with
  | EmptyString => []
  | String c s' => JStr (String c EmptyString) :: characters s'
  end.

(** [Object.entries(v)] for a truthy [v]: own enumerable string-keyed
    properties.  Arrays and strings are indexed; numbers and booleans have
    none. *)
Definition Object_entries (v : JValue) : list (string * JValue) :=
  match v with
  | JObj fields => fields
  | JArr items => indexed 0 items
  | JStr s => indexed 0 (characters s)
  | _ => []
  end.

(** ** The zod validators the translator builds *)

(** A zod schema as the tree of its [_def]s: the kind, the children, and the
    [description] that [.describe] stores. *)
Inductive ZodType : Type :=
| ZodAny (description : option JValue)
| ZodString (description : option JValue)
| ZodNumber (description : option JValue)
| ZodBoolean (description : option JValue)
| ZodArray (element : ZodType) (description : option JValue)
| ZodObject (shape : list (string * ZodType)) (description : option JValue).

Definition Shape : Type := list (string * ZodType).

Definition z_any : ZodType := ZodAny None.
Definition z_string : ZodType := ZodString None.
Definition z_number : ZodType := ZodNumber None.
Definition z_boolean : ZodType := ZodBoolean None.
Definition z_array (element : ZodType) : ZodType := ZodArray element None.
Definition z_object (shape : Shape) : ZodType := ZodObject shape None.

(** [schema.description]. *)
Definition description (z : ZodType) : option JValue :=
  match z with
  | ZodAny d | ZodString d | ZodNumber d | ZodBoolean d => d
  | ZodArray _ d | ZodObject _ d => d
  end.

(** [schema.describe(d)]: the same schema with [description] set to [d]. *)
Definition describe (z : ZodType) (d : JValue) : ZodType :=
  match z with
  | ZodAny _ => ZodAny (Some d)
  | ZodString _ => ZodString (Some d)
  | ZodNumber _ => ZodNumber (Some d)
  | ZodBoolean _ => ZodBoolean (Some d)
  | ZodArray e _ => ZodArray e (Some d)
  | ZodObject s _ => ZodObject s (Some d)
  end.

(** [schema.safeParse(v).success] in zod 3.  A number must not be [NaN]; an
    array checks every element; an object (in zod's default "strip" mode)
    parses [v[key]] for every key of its shape, [undefined] when [v] has no
    such property, and ignores the other properties of [v]. *)
Fixpoint accepts (z : ZodType) (v : JValue) {struct z} : bool :=
  match z with
  | ZodAny _ => true
  | ZodString _ => match v with JStr _ => true | _ => false end
  | ZodNumber _ =>
      match v with JNum n => negb (PrimFloat.is_nan n) | _ => false end
  | ZodBoolean _ => match v with JBool _ => true | _ => false end
  | ZodArray element _ =>
      match v with
      | JArr items => forallb (accepts element) items
      | _ => false
      end
  | ZodObject shape _ =>
      match v with
      | JObj fields =>
          forallb (fun kz => accepts (snd kz)
                               (default JUndefined (assoc (fst kz) fields)))
                  shape
      | _ => false
      end
  end.

(** ** The schema translator: [jsonSchemaToZod] *)

(** The recursion of [jsonSchemaToZod] is not structural in the schema value
    (it goes through [schema.properties] and [Object.entries]), so it is
    defined with a bound on the depth of the calls; [OutOfFuel] says the bound
    was reached before the call returned or threw. *)
Inductive Fueled (A : Type) : Type :=
| Ran (c : Completion A)
| OutOfFuel.
Arguments Ran {A} c.
Arguments OutOfFuel {A}.

#[global] Instance Fueled_ret : MRet Fueled := fun _ a => Ran (Normal a).
#[global] Instance Fueled_bind : MBind Fueled := fun _ _ k m =>
  match m with
  | Ran (Normal a) => k a
  | Ran (Throw e) => Ran (Throw e)
  | OutOfFuel => OutOfFuel
  end.

(** The elements [forEach] visits. *)
Definition elements (v : JValue) : list JValue :=
  match v with JArr items => items | _ => [] end.

(** Nesting depth of arrays and objects. *)
Fixpoint depth (v : JValue) : nat :=
  match v with
  | JArr items => S (foldr (fun x n => Nat.max (depth x) n) 0 items)
  | JObj fields => S (foldr (fun kv n => Nat.max (depth (snd kv)) n) 0 fields)
  | _ => 0
  end.

Section Translator.

(** [ToPropertyKey] of ECMAScript, which [shape[field]] applies to [field]. *)
Variable ToPropertyKey : JValue -> string.

(** [required.forEach(field => { if (shape[field]) { shape[field] =
    shape[field]; } })].  A zod schema is an object, hence truthy; [field] is
    looked up among the properties the first loop gave the shape. *)
Fixpoint forEach_required (required : list JValue) (shape : Shape) : Shape :=
  match required with
  | [] => shape
  | field :: rest =>
      let key := ToPropertyKey field in
      forEach_required rest
        match assoc key shape with
        | Some fieldSchema => assign key fieldSchema shape
        | None => shape
        end
  end.

Section Body.

(** The recursive calls. *)
Variable self : JValue -> Fueled ZodType.

(** [Object.entries(schema.properties).forEach(([key, value]) => ...)]. *)
Fixpoint forEach_properties (entries : list (string * JValue))
    (shape : Shape) : Fueled Shape :=
  match entries with
  | [] => mret shape
  | (key, value) :: rest =>
      fieldSchema ← self value;
      d ← Ran (getProp value "description");
      let fieldSchema :=
        if truthy d then describe fieldSchema d else fieldSchema in
      forEach_properties rest (assign key fieldSchema shape)
  end.

Definition jsonSchemaToZod_body (schema : JValue) : Fueled ZodType :=
  if negb (truthy schema) then mret z_any else
  ty ← Ran (getProp schema "type");
  if negb (truthy ty) then mret z_any else
  if strict_eq_str ty "object" then
    properties ← Ran (getProp schema "properties");
    shape ← (if truthy properties
             then forEach_properties (Object_entries properties) []
             else mret []);
    let zodObj := z_object shape in
    required ← Ran (getProp schema "required");
    let zodObj :=
      if truthy required && Array_isArray required
      then z_object (forEach_required (elements required) shape)
      else zodObj in
    d ← Ran (getProp schema "description");
    mret (if truthy d then describe zodObj d else zodObj)
  else if strict_eq_str ty "string" then
    d ← Ran (getProp schema "description");
    mret (if truthy d then describe z_string d else z_string)
  else if strict_eq_str ty "number" then
    d ← Ran (getProp schema "description");
    mret (if truthy d then describe z_number d else z_number)
  else if strict_eq_str ty "boolean" then
    d ← Ran (getProp schema "description");
    mret (if truthy d then describe z_boolean d else z_boolean)
  else if strict_eq_str ty "array" then
    items ← Ran (getProp schema "items");
    element ← (if truthy items then self items else mret z_any);
    let arrSchema := z_array element in
    d ← Ran (getProp schema "description");
    mret (if truthy d then describe arrSchema d else arrSchema)
  else mret z_any.

End Body.

Fixpoint jsonSchemaToZod_fuel (fuel : nat) (schema : JValue)
  : Fueled ZodType :=
  match fuel with
  | O => OutOfFuel
  | S fuel' => jsonSchemaToZod_body (jsonSchemaToZod_fuel fuel') schema
  end.

(** [jsonSchemaToZod(schema)].  The bound [S (depth schema)] is never
    reached ([jsonSchemaToZod_fuel_enough] below); a JavaScript engine that
    runs out of stack throws the [RangeError]. *)
Definition jsonSchemaToZod (schema : JValue) : Completion ZodType :=
  match jsonSchemaToZod_fuel (S (depth schema)) schema with
  | Ran c => c
  | OutOfFuel => Throw (RangeError "Maximum call stack size exceeded")
  end.

End Translator.

(** ** Model clients *)

(** [new OpenAIClient(apiKey, modelName, params = {})].  [{...a, ...b}]
    assigns the properties of [b] over those of [a]. *)
Definition spread (a b : list (string * JValue)) : list (string * JValue) :=
  foldl (fun o kv => assign (fst kv) (snd kv) o) a b.

Record OpenAIClient : Type := {
  openai : string;                          (* new OpenAI({ apiKey }) *)
  modelName : string;
  defaultParams : list (string * JValue);
  modelType : string
}.

Definition new_OpenAIClient (apiKey modelName : string)
    (params : list (string * JValue)) : OpenAIClient :=
  {| openai := apiKey;
     modelName := modelName;
     defaultParams :=
       spread [("temperature", JNum 0.8%float); ("max_tokens", JNum 1000%float)]
              params;
     modelType := "openai" |}.

(** Modelled from the spec: [AnthropicClient] and [FireworkClient] are not
    among the sources.  A model client is "identified by a modelType tag" and
    "holds its own provider credentials"; the two constructors take the
    credential and the model name, as [Agent] calls them. *)
Record ProviderClient : Type := {
  provider_modelType : string;
  provider_apiKey : string;
  provider_modelName : string
}.

Definition new_AnthropicClient (apiKey modelName : string) : ProviderClient :=
  {| provider_modelType := "anthropic";
     provider_apiKey := apiKey;
     provider_modelName := modelName |}.

Definition new_FireworkClient (apiKey modelName : string) : ProviderClient :=
  {| provider_modelType := "fireworks";
     provider_apiKey := apiKey;
     provider_modelName := modelName |}.

(** The [ModelClient] interface, by implementation. *)
Inductive ModelClient : Type :=
| OpenAI_client (c : OpenAIClient)
| Anthropic_client (c : ProviderClient)
| Firework_client (c : ProviderClient).

Definition client_modelType (c : ModelClient) : string :=
  match c with
  | OpenAI_client c => modelType c
  | Anthropic_client c | Firework_client c => provider_modelType c
  end.

Definition client_apiKey (c : ModelClient) : string :=
  match c with
  | OpenAI_client c => openai c
  | Anthropic_client c | Firework_client c => provider_apiKey c
  end.

(** ** Agent definitions and the agent runtime *)

(** Modelled from the spec: the record [agentsRegistry] yields,
    [{name, description, system_prompt, model, client, dynamic_variables?,
    output_schema?}]; an absent [output_schema] is [JUndefined]. *)
Record AgentDefinition : Type := {
  name : string;
  def_description : string;
  system_prompt : string;
  model : string;
  client : string;
  dynamic_variables : option (list (string * string));
  output_schema : JValue
}.

Record AgentConfig : Type := {
  config_name : string;
  config_description : string;
  systemPromptTemplate : string;
  dynamicVariables : list (string * string)
}.

(** Modelled from the spec: [BaseAgent] is not among the sources.  The runtime
    owns what the constructor is given and a message history that starts
    empty. *)
Record BaseAgent : Type := {
  config : AgentConfig;
  modelClient : ModelClient;
  outputSchema : option ZodType;
  history : list (string * string)
}.

Definition new_BaseAgent (config : AgentConfig) (modelClient : ModelClient)
    (outputSchema : option ZodType) : BaseAgent :=
  {| config := config;
     modelClient := modelClient;
     outputSchema := outputSchema;
     history := [] |}.

Record AgentOptions : Type := {
  agentName : option string;
  agentConfigPath : option string
}.

Record Agent : Type := { agent : BaseAgent }.

(** Truthiness of an optional string ([options.agentName],
    [process.env.OPENAI_API_KEY]): absent and [""] are falsy. *)
Definition present (s : option string) : bool :=
  match s with
  | Some s => truthy (JStr s)
  | None => false
  end.

(** ** Effects of the constructor *)

(** What the program does besides computing: the constructor calls one of the
    two loaders, constructs a model client, writes to the console, constructs
    the runtime; a model client sends a chat request over the network. *)
Inductive Event : Type :=
| LoadAgentFromFile (path : string)
| LoadAgentDefinition (name : string)
| NewModelClient (modelType : string)
| ConsoleError (message : string) (error : Exn)
| NewBaseAgent
| ChatCompletionsCreate (requestParams : list (string * JValue)).

(** A computation: the events it performed, in order, and how it ended. *)
Record Eff (A : Type) : Type := mkEff {
  events : list Event;
  completion : Completion A
}.
Arguments mkEff {A} events completion.
Arguments events {A} e.
Arguments completion {A} e.

#[global] Instance Eff_ret : MRet Eff := fun _ a => mkEff [] (Normal a).
#[global] Instance Eff_bind : MBind Eff := fun _ _ k m =>
  match completion m with
  | Normal a => mkEff (events m ++ events (k a)) (completion (k a))
  | Throw e => mkEff (events m) (Throw e)
  end.

Definition throw {A : Type} (e : Exn) : Eff A := mkEff [] (Throw e).
Definition emit (ev : Event) : Eff unit := mkEff [ev] (Normal tt).
Definition perform {A : Type} (ev : Event) (c : Completion A) : Eff A :=
  mkEff [ev] c.
Definition pure {A : Type} (c : Completion A) : Eff A := mkEff [] c.

Definition Eff_try_catch {A : Type} (body : Eff A) (handler : Exn -> Eff A)
  : Eff A :=
  match completion body with
  | Normal a => body
  | Throw e => mkEff (events body ++ events (handler e))
                     (completion (handler e))
  end.

(** [OpenAIClient.chatCompletion(params)], awaited; [respond] is the answer of
    [openai.chat.completions.create].  The [catch] rethrows. *)
Definition OpenAIClient_chatCompletion
    (respond : list (string * JValue) -> Completion JValue)
    (this : OpenAIClient) (params : list (string * JValue)) : Eff JValue :=
  Eff_try_catch
    (let requestParams :=
       spread (spread [("model", JStr (modelName this))] (defaultParams this))
              params in
     perform (ChatCompletionsCreate requestParams) (respond requestParams))
    (fun error => throw error).

(** ** The [Agent] constructor *)

Section AgentFacade.

Variable ToPropertyKey : JValue -> string.

(** [process.env]. *)
Variable process_env : gmap string string.

(** The two loaders of [agentsRegistry]; either may throw. *)
Variable loadAgentFromFile : string -> Completion AgentDefinition.
Variable loadAgentDefinition : string -> Completion AgentDefinition.

(** Lines 18-27: resolve the agent definition. *)
Definition resolveDefinition (options : AgentOptions) : Eff AgentDefinition :=
  if present (agentConfigPath options) then
    let path := default "" (agentConfigPath options) in
    perform (LoadAgentFromFile path) (loadAgentFromFile path)
  else if present (agentName options) then
    let name := default "" (agentName options) in
    perform (LoadAgentDefinition name) (loadAgentDefinition name)
  else
    throw (Error "You must provide either agentName or agentConfigPath").

(** Lines 29-47: select and construct the model client. *)
Definition selectModelClient (agentDef : AgentDefinition) : Eff ModelClient :=
  if String.eqb (client agentDef) "openai" then
    if negb (present (process_env !! "OPENAI_API_KEY")) then
      throw (Error "OPENAI_API_KEY not set")
    else
      emit (NewModelClient "openai");;
      mret (OpenAI_client
              (new_OpenAIClient (default "" (process_env !! "OPENAI_API_KEY"))
                                (model agentDef) []))
  else if String.eqb (client agentDef) "anthropic" then
    if negb (present (process_env !! "ANTHROPIC_API_KEY")) then
      throw (Error "ANTHROPIC_API_KEY not set")
    else
      emit (NewModelClient "anthropic");;
      mret (Anthropic_client
              (new_AnthropicClient
                 (default "" (process_env !! "ANTHROPIC_API_KEY"))
                 (model agentDef)))
  else if String.eqb (client agentDef) "fireworks" then
    if negb (present (process_env !! "FIREWORKS_API_KEY")) then
      throw (Error "FIREWORKS_API_KEY not set")
    else
      emit (NewModelClient "fireworks");;
      mret (Firework_client
              (new_FireworkClient
                 (default "" (process_env !! "FIREWORKS_API_KEY"))
                 (model agentDef)))
  else
    throw (Error ("Unsupported model client: " +:+ client agentDef)).

(** Lines 49-57: compile the output schema, if there is one. *)
Definition compileOutputSchema (agentDef : AgentDefinition)
  : Eff (option ZodType) :=
  if truthy (output_schema agentDef) then
    Eff_try_catch
      (z ← pure (jsonSchemaToZod ToPropertyKey (output_schema agentDef));
       mret (Some z))
      (fun error =>
         emit (ConsoleError "Error converting output schema:" error);;
         throw (Error "Failed to convert output schema to Zod schema"))
  else mret None.

(** [new Agent(options)]. *)
Definition new_Agent (options : AgentOptions) : Eff Agent :=
  agentDef ← resolveDefinition options;
  modelClient ← selectModelClient agentDef;
  outputSchema ← compileOutputSchema agentDef;
  emit NewBaseAgent;;
  mret {| agent :=
            new_BaseAgent
              {| config_name := name agentDef;
                 config_description := def_description agentDef;
                 systemPromptTemplate := system_prompt agentDef;
                 dynamicVariables :=
                   default [] (dynamic_variables agentDef) |}
              modelClient
              outputSchema |}.

End AgentFacade.

(** ** The [get-tweets] command *)

Record CommandResult : Type := { output : string }.

Definition newline : string := String (Ascii.ascii_of_nat 10) EmptyString.

(** [parts.join(separator)]. *)
Fixpoint join (parts : list string) (separator : string) : string :=
  match parts with
  | [] => ""
  | [p] => p
  | p :: rest => p +:+ separator +:+ join rest separator
  end.

(** [s.startsWith(p)]. *)
Definition startsWith (s p : string) : bool := String.prefix p s.

Section GetTweets.

(** [getTweets(username, limit)] of the twitter module, awaited: it yields
    the lines of its report or throws. *)
Variable getTweets : JValue -> JValue -> Completion (list string).

(** [twitterGetTweets.handler(args)], awaited. *)
Definition handler (args : JValue) : Completion CommandResult :=
  try_catch
    (username ← getProp args "username";
     limit ← getProp args "limit";
     result ← getTweets username limit;
     let formattedResult := join result newline in
     mret {| output :=
               if startsWith formattedResult "Error"
               then "❌ " +:+ formattedResult
               else "📝 " +:+ formattedResult |})
    (fun error =>
       mret {| output := "❌ Error fetching tweets: " +:+ Exn_toString error |}).

End GetTweets.

(** ** Specification vocabulary *)

(** The values a call [jsonSchemaToZod(schema)] passes to its recursive calls:
    the property values of [schema.properties] and a truthy [schema.items]. *)
Definition recursive_argument (schema v : JValue) : Prop :=
  (exists key, (key, v) ∈ Object_entries (get schema "properties"))
  \/ (v = get schema "items" /\ truthy v = true).

(** The type tags the [switch] has a case for. *)
Definition recognized_tags : list string :=
  ["object"; "string"; "number"; "boolean"; "array"].

(** Walking a schema tree the way the translator does: from an [object] node
    to the value of one of its [properties], from an [array] node to its
    [items]. *)
Inductive Step : Type :=
| Field (key : string)
| Items.

Definition schema_child (schema : JValue) (s : Step) : option JValue :=
  match s with
  | Field key =>
      if strict_eq_str (get schema "type") "object"
         && truthy (get schema "properties")
      then assoc key (Object_entries (get schema "properties"))
      else None
  | Items =>
      if strict_eq_str (get schema "type") "array"
         && truthy (get schema "items")
      then Some (get schema "items")
      else None
  end.

Fixpoint schema_at (schema : JValue) (path : list Step) : option JValue :=
  match path with
  | [] => Some schema
  | s :: path' => child ← schema_child schema s; schema_at child path'
  end.

(** The same walk in a compiled validator. *)
Definition validator_child (z : ZodType) (s : Step) : option ZodType :=
  match s, z with
  | Field key, ZodObject shape _ => assoc key shape
  | Items, ZodArray element _ => Some element
  | _, _ => None
  end.

Fixpoint validator_at (z : ZodType) (path : list Step) : option ZodType :=
  match path with
  | [] => Some z
  | s :: path' => child ← validator_child z s; validator_at child path'
  end.

(** Whether the node a path leads to is an object field: the last step is a
    [Field] ([start] answers for the empty path). *)
Fixpoint reached_as_field (start : bool) (path : list Step) : bool :=
  match path with
  | [] => start
  | Field _ :: path' => reached_as_field true path'
  | Items :: path' => reached_as_field false path'
  end.

(** The property names of every object in the value are distinct, as they are
    in every JavaScript object. *)
Fixpoint unique_keys (v : JValue) : bool :=
  match v with
  | JObj fields =>
      bool_decide (NoDup fields.*1)
      && forallb (fun kv => unique_keys (snd kv)) fields
  | JArr items => forallb unique_keys items
  | _ => true
  end.

(** The properties of a schema node that the translator reads to build the
    validator. *)
Definition schema_keywords : list string :=
  ["type"; "properties"; "items"; "description"].

(** [v == null]: the two values whose properties cannot be read. *)
Definition nullish (v : JValue) : bool :=
  match v with
  | JUndefined | JNull => true
  | _ => false
  end.

(** The two [TypeError]s [value.description] can throw. *)
Definition description_of_nullish : list Exn :=
  [TypeError "Cannot read properties of null (reading 'description')";
   TypeError "Cannot read properties of undefined (reading 'description')"].

(** The provider identifiers the constructor has a branch for, each with the
    environment variable it reads. *)
Definition supported_providers : list (string * string) :=
  [("openai", "OPENAI_API_KEY");
   ("anthropic", "ANTHROPIC_API_KEY");
   ("fireworks", "FIREWORKS_API_KEY")].

(** The events that are, or make possible, a call to a provider. *)
Definition is_NewModelClient (ev : Event) : bool :=
  match ev with NewModelClient _ => true | _ => false end.

Definition is_network_call (ev : Event) : bool :=
  match ev with ChatCompletionsCreate _ => true | _ => false end.

Definition offline (ev : Event) : bool :=
  negb (is_NewModelClient ev) && negb (is_network_call ev).

(** The caller gave exactly one of [agentName] and [agentConfigPath]. *)
Definition exactly_one_mode (options : AgentOptions) : bool :=
  xorb (present (agentName options)) (present (agentConfigPath options)).

(** ** Sample inputs *)

(** A [ToPropertyKey] that is exact on strings and on the constants. *)
Definition sample_ToPropertyKey (v : JValue) : string :=
  match v with
  | JStr s => s
  | JNull => "null"
  | JUndefined => "undefined"
  | JBool true => "true"
  | JBool false => "false"
  | _ => "[object Object]"
  end.

(** [{type: "object", properties: {name: {type: "string"}, nickname: {type:
    "string"}}, required: ["name"]}]. *)
Definition profile_schema : JValue :=
  JObj [("type", JStr "object");
        ("properties",
         JObj [("name", JObj [("type", JStr "string")]);
               ("nickname", JObj [("type", JStr "string")])]);
        ("required", JArr [JStr "name"])].

(** [{type: "object", description: "a report", properties: {tags: {type:
    "array", items: {type: "string", description: "one tag"}}, score:
    {type: "integer", description: "0 to 10"}}}]. *)
Definition report_schema : JValue :=
  JObj [("type", JStr "object");
        ("description", JStr "a report");
        ("properties",
         JObj [("tags",
                JObj [("type", JStr "array");
                      ("items", JObj [("type", JStr "string");
                                      ("description", JStr "one tag")])]);
               ("score",
                JObj [("type", JStr "integer");
                      ("description", JStr "0 to 10")])])].

(** [{type: "object", properties: {count: null}}]: a property without a
    schema. *)
Definition malformed_schema : JValue :=
  JObj [("type", JStr "object");
        ("properties", JObj [("count", JNull)])].

(** [{type: "integer", description: "a count"}]: a tag the translator has no
    case for. *)
Definition integer_schema : JValue :=
  JObj [("type", JStr "integer"); ("description", JStr "a count")].

(** [{type: "number", description: "a count"}]. *)
Definition number_schema : JValue :=
  JObj [("type", JStr "number"); ("description", JStr "a count")].

(** A registry with three agents and one configuration file. *)
Definition summarizer : AgentDefinition :=
  {| name := "summarizer";
     def_description := "Summarizes text";
     system_prompt := "Summarize the text you are given.";
     model := "gpt-4o";
     client := "openai";
     dynamic_variables := None;
     output_schema := JUndefined |}.

Definition oracle : AgentDefinition :=
  {| name := "oracle";
     def_description := "Answers questions";
     system_prompt := "Answer briefly.";
     model := "grok-1";
     client := "grok";
     dynamic_variables := None;
     output_schema := JUndefined |}.

Definition counter : AgentDefinition :=
  {| name := "counter";
     def_description := "Counts things";
     system_prompt := "Count the items.";
     model := "gpt-4o";
     client := "openai";
     dynamic_variables := Some [("unit", "items")];
     output_schema := malformed_schema |}.

Definition sample_loadAgentDefinition (name : string)
  : Completion AgentDefinition :=
  if String.eqb name "summarizer" then Normal summarizer
  else if String.eqb name "oracle" then Normal oracle
  else if String.eqb name "counter" then Normal counter
  else Throw (Error ("Agent not found: " +:+ name)).

Definition sample_loadAgentFromFile (path : string)
  : Completion AgentDefinition :=
  if String.eqb path "agents/counter.yaml" then Normal counter
  else if String.eqb path "agents/summarizer.yaml" then Normal summarizer
  else Throw (Error ("Cannot read " +:+ path)).

Definition sample_env : gmap string string :=
  {[ "OPENAI_API_KEY" := "sk-test" ]}.

Definition by_name (name : string) : AgentOptions :=
  {| agentName := Some name; agentConfigPath := None |}.

Definition both_options : AgentOptions :=
  {| agentName := Some "oracle";
     agentConfigPath := Some "agents/summarizer.yaml" |}.

Definition no_options : AgentOptions :=
  {| agentName := None; agentConfigPath := None |}.

(** A tweet source that knows one user. *)
Definition sample_getTweets (username limit : JValue)
  : Completion (list string) :=
  if strict_eq_str username "ada" then Normal ["first tweet"; "second tweet"]
  else if strict_eq_str username "nobody" then Normal ["Error: user not found"]
  else Throw (Error "rate limited").

(** [{type: "array", items: {type: "object", properties: {count: null}}}]:
    the property without a schema sits below an array. *)
Definition nested_malformed_schema : JValue :=
  JObj [("type", JStr "array"); ("items", malformed_schema)].

(** [{type: "array", items: {type: "number"}}]. *)
Definition numbers_schema : JValue :=
  JObj [("type", JStr "array");
        ("items", JObj [("type", JStr "number")])].

(** An agent with an output schema, and the file that defines it. *)
Definition profiler : AgentDefinition :=
  {| name := "profiler";
     def_description := "Extracts a profile";
     system_prompt := "Extract the profile of {{person}}.";
     model := "claude-3-5-sonnet";
     client := "anthropic";
     dynamic_variables := Some [("person", "the author")];
     output_schema := profile_schema |}.

Definition profile_loadAgentFromFile (path : string)
  : Completion AgentDefinition :=
  if String.eqb path "agents/profiler.yaml" then Normal profiler
  else Throw (Error ("Cannot read " +:+ path)).

Definition by_path (path : string) : AgentOptions :=
  {| agentName := None; agentConfigPath := Some path |}.

Definition two_keys_env : gmap string string :=
  {[ "OPENAI_API_KEY" := "sk-test"; "ANTHROPIC_API_KEY" := "sk-ant-test" ]}.

(** Parameters of a client and of a call. *)
Definition cool_params : list (string * JValue) :=
  [("temperature", JNum 0.25%float)].

Definition call_params : list (string * JValue) :=
  [("messages", JArr [JObj [("role", JStr "user");
                            ("content", JStr "hello")]]);
   ("max_tokens", JNum 64%float)].

(** A provider that answers every request with its [model]. *)
Definition echo_model (requestParams : list (string * JValue))
  : Completion JValue :=
  Normal (default JUndefined (assoc "model" requestParams)).

(** * Properties *)

(** ** Property tables *)

Lemma assign_assoc_same {A : Type} (k : string) (x : A) o :
  assoc k o = Some x -> assign k x o = o.
Proof.
  induction o as [|[k' y] o IH]; simpl; [discriminate|].
  destruct (String.eqb k' k) eqn:E.
  - intros [= ->]. apply String.eqb_eq in E. by subst.
  - intros H. by rewrite IH.
Qed.

Lemma assoc_assign_eq {A : Type} (k : string) (x : A) o :
  assoc k (assign k x o) = Some x.
Proof.
  induction o as [|[k' y] o IH]; simpl.
  - by rewrite String.eqb_refl.
  - destruct (String.eqb k' k) eqn:E; simpl.
    + by rewrite String.eqb_refl.
    + by rewrite E.
Qed.

Lemma assoc_assign_ne {A : Type} (k k' : string) (x : A) o :
  k <> k' -> assoc k' (assign k x o) = assoc k' o.
Proof.
  intros Hne. induction o as [|[k0 y] o IH]; simpl.
  - destruct (String.eqb k k') eqn:E; [|done].
    apply String.eqb_eq in E. contradiction.
  - destruct (String.eqb k0 k) eqn:E; simpl.
    + apply String.eqb_eq in E. subst k0.
      destruct (String.eqb k k') eqn:E'; [|done].
      apply String.eqb_eq in E'. contradiction.
    + by rewrite IH.
Qed.

Lemma assoc_elem_of {A : Type} (k : string) (x : A) o :
  assoc k o = Some x -> (k, x) ∈ o.
Proof.
  induction o as [|[k' y] o IH]; simpl; [discriminate|].
  destruct (String.eqb k' k) eqn:E.
  - intros [= ->]. apply String.eqb_eq in E. subst. left.
  - intros H. right. auto.
Qed.

(** ** Depth of the values the translator visits *)

Lemma depth_field fields k v :
  (k, v) ∈ fields -> depth v < depth (JObj fields).
Proof.
  induction fields as [|[k' y] l IH]; intros H.
  - by apply elem_of_nil in H.
  - apply elem_of_cons in H as [[= <- <-]|H]; [simpl; lia|].
    specialize (IH H). simpl in *. lia.
Qed.

Lemma depth_item items v : v ∈ items -> depth v < depth (JArr items).
Proof.
  induction items as [|y l IH]; intros H.
  - by apply elem_of_nil in H.
  - apply elem_of_cons in H as [<-|H]; [simpl; lia|].
    specialize (IH H). simpl in *. lia.
Qed.

Lemma elem_of_indexed {A : Type} (l : list A) i k x :
  (k, x) ∈ indexed i l -> x ∈ l.
Proof.
  revert i. induction l as [|y l IH]; simpl; intros i H.
  - by apply elem_of_nil in H.
  - apply elem_of_cons in H as [[= _ ->]|H]; [left|right; eauto].
Qed.

Lemma depth_characters s v : v ∈ characters s -> depth v = 0.
Proof.
  induction s as [|c s IH]; simpl; intros H.
  - by apply elem_of_nil in H.
  - apply elem_of_cons in H as [->|H]; auto.
Qed.

Lemma depth_entries v k x : (k, x) ∈ Object_entries v -> depth x <= depth v.
Proof.
  destruct v; simpl; intros H; try (by apply elem_of_nil in H).
  - apply elem_of_indexed, depth_characters in H. lia.
  - apply elem_of_indexed, depth_item in H. simpl in H. lia.
  - apply depth_field in H. simpl in H. lia.
Qed.

Lemma depth_get fields k : depth (get (JObj fields) k) < depth (JObj fields).
Proof.
  unfold get. destruct (assoc k fields) as [v|] eqn:E.
  - apply assoc_elem_of in E. simpl default. eapply depth_field; eauto.
  - simpl. lia.
Qed.

Lemma truthy_get_object schema k :
  truthy (get schema k) = true -> exists fields, schema = JObj fields.
Proof. destruct schema; simpl; try discriminate. eauto. Qed.

(** A recursive call is on a value of strictly smaller depth. *)
Lemma recursive_argument_depth schema v :
  recursive_argument schema v -> depth v < depth schema.
Proof.
  intros [[key Hin]|[-> Ht]].
  - destruct schema; simpl in Hin; try (by apply elem_of_nil in Hin).
    apply depth_entries in Hin.
    pose proof (depth_get fields "properties"). unfold get in H. lia.
  - apply truthy_get_object in Ht as [fields ->]. apply depth_get.
Qed.

Lemma getProp_truthy schema k :
  truthy schema = true -> getProp schema k = Normal (get schema k).
Proof. by destruct schema. Qed.

(** ** Proof steps *)

(** Case analysis on the tests of a [switch], and on the conditions of the
    [if]s in the goal. *)
Ltac case_switch :=
  repeat (match goal with
          | |- context [strict_eq_str ?a ?b] => destruct (strict_eq_str a b)
          end; simpl).

Ltac case_ifs :=
  repeat match goal with
         | |- context [if ?b then _ else _] => destruct b
         end.

(** Unfold one call of the translator on a truthy schema [Hs]. *)
Ltac enter_body Hs :=
  unfold jsonSchemaToZod_body; rewrite Hs; simpl;
  rewrite ?(getProp_truthy _ _ Hs); simpl.

(** ** The translator: fuel, locality, unfolding *)

Section TranslatorFacts.

Variable ToPropertyKey : JValue -> string.

Local Abbreviation translate := (jsonSchemaToZod ToPropertyKey).
Local Abbreviation translate_fuel := (jsonSchemaToZod_fuel ToPropertyKey).
Local Abbreviation translate_body := (jsonSchemaToZod_body ToPropertyKey).

(** The loop over [required] leaves the shape as it was. *)
Lemma forEach_required_id required shape :
  forEach_required ToPropertyKey required shape = shape.
Proof.
  induction required as [|field rest IH]; simpl; [done|].
  destruct (assoc (ToPropertyKey field) shape) as [z|] eqn:E; [|done].
  by rewrite (assign_assoc_same _ _ _ E).
Qed.

Lemma forEach_properties_ext self1 self2 entries shape :
  (forall k v, (k, v) ∈ entries -> self1 v = self2 v) ->
  forEach_properties self1 entries shape
  = forEach_properties self2 entries shape.
Proof.
  revert shape. induction entries as [|[key value] rest IH];
    intros shape H; simpl; [done|].
  rewrite (H key value) by left.
  destruct (self2 value) as [[fieldSchema|e]|]; simpl; try done.
  destruct (getProp value "description") as [d|e]; simpl; try done.
  apply IH. intros k v Hin. apply (H k). by right.
Qed.

(** The body consults its recursive calls at [recursive_argument]s only. *)
Lemma jsonSchemaToZod_body_ext self1 self2 schema :
  (forall v, recursive_argument schema v -> self1 v = self2 v) ->
  translate_body self1 schema = translate_body self2 schema.
Proof.
  intros H. destruct (truthy schema) eqn:Hs;
    [|by unfold jsonSchemaToZod_body; rewrite Hs].
  enter_body Hs.
  destruct (truthy (get schema "type")); simpl; [|done].
  case_switch; try done.
  - destruct (truthy (get schema "properties")); simpl; [|done].
    rewrite (forEach_properties_ext self1 self2); [done|].
    intros k v Hin. apply H. left. eauto.
  - destruct (truthy (get schema "items")) eqn:Hi; simpl; [|done].
    rewrite H; [done|]. by right.
Qed.

Lemma forEach_properties_fuel self entries shape :
  (forall k v, (k, v) ∈ entries -> self v <> OutOfFuel) ->
  forEach_properties self entries shape <> OutOfFuel.
Proof.
  revert shape. induction entries as [|[key value] rest IH];
    intros shape H; simpl; [done|].
  pose proof (H key value ltac:(left)) as Hv.
  destruct (self value) as [[fieldSchema|e]|]; simpl; try done.
  destruct (getProp value "description") as [d|e]; simpl; try done.
  apply IH. intros k v Hin. apply (H k). by right.
Qed.

Lemma jsonSchemaToZod_body_fuel self schema :
  (forall v, recursive_argument schema v -> self v <> OutOfFuel) ->
  translate_body self schema <> OutOfFuel.
Proof.
  intros H. destruct (truthy schema) eqn:Hs;
    [|by unfold jsonSchemaToZod_body; rewrite Hs].
  enter_body Hs.
  destruct (truthy (get schema "type")); simpl; [|done].
  case_switch; try done.
  - destruct (truthy (get schema "properties")) eqn:Hp; simpl; [|done].
    pose proof (forEach_properties_fuel self
                  (Object_entries (get schema "properties")) []) as Hf.
    destruct (forEach_properties self _ []) as [[shape|e]|]; simpl; try done.
    exfalso. apply Hf; [|done]. intros k v Hin. apply H. left. eauto.
  - destruct (truthy (get schema "items")) eqn:Hi; simpl; [|done].
    pose proof (H (get schema "items") ltac:(by right)) as Hv.
    destruct (self (get schema "items")) as [[z|e]|]; simpl; done.
Qed.

(** With more fuel than the schema is deep, the bound is not reached. *)
Lemma jsonSchemaToZod_fuel_not_out fuel schema :
  depth schema < fuel -> translate_fuel fuel schema <> OutOfFuel.
Proof.
  revert schema. induction fuel as [|fuel IH]; intros schema Hd; [lia|].
  simpl. apply jsonSchemaToZod_body_fuel. intros v Hv.
  apply IH. apply recursive_argument_depth in Hv. lia.
Qed.

(** ... and the outcome does not depend on how much more. *)
Lemma jsonSchemaToZod_fuel_stable fuel1 fuel2 schema :
  depth schema < fuel1 -> depth schema < fuel2 ->
  translate_fuel fuel1 schema = translate_fuel fuel2 schema.
Proof.
  revert fuel2 schema. induction fuel1 as [|fuel1 IH];
    intros [|fuel2] schema H1 H2; try lia.
  simpl. apply jsonSchemaToZod_body_ext. intros v Hv.
  apply recursive_argument_depth in Hv. apply IH; lia.
Qed.

Lemma jsonSchemaToZod_fuel_enough fuel schema :
  depth schema < fuel ->
  translate_fuel fuel schema = Ran (translate schema).
Proof.
  intros Hd. unfold jsonSchemaToZod.
  rewrite (jsonSchemaToZod_fuel_stable fuel (S (depth schema))) by lia.
  pose proof (jsonSchemaToZod_fuel_not_out (S (depth schema)) schema
                ltac:(lia)) as Hn.
  by destruct (jsonSchemaToZod_fuel ToPropertyKey (S (depth schema)) schema).
Qed.

(** [jsonSchemaToZod] satisfies the recursive equation of its source. *)
Lemma jsonSchemaToZod_unfold schema :
  Ran (translate schema)
  = translate_body (fun v => Ran (translate v)) schema.
Proof.
  rewrite <- (jsonSchemaToZod_fuel_enough (S (depth schema))) by lia.
  simpl. apply jsonSchemaToZod_body_ext. intros v Hv.
  apply jsonSchemaToZod_fuel_enough.
  by apply recursive_argument_depth.
Qed.

Lemma strict_eq_str_true v s : strict_eq_str v s = true <-> v = JStr s.
Proof.
  destruct v; simpl; try (split; [discriminate|congruence]).
  rewrite String.eqb_eq. split; congruence.
Qed.

Lemma strict_eq_str_false v s : strict_eq_str v s = false <-> v <> JStr s.
Proof.
  rewrite <- strict_eq_str_true. by destruct (strict_eq_str v s).
Qed.

(** One step of [jsonSchemaToZod] on a node whose tag the [switch] has no
    case for. *)
Lemma jsonSchemaToZod_body_default self schema :
  (forall tag, tag ∈ recognized_tags -> get schema "type" <> JStr tag) ->
  translate_body self schema = Ran (Normal z_any).
Proof.
  intros H. destruct (truthy schema) eqn:Hs;
    [|by unfold jsonSchemaToZod_body; rewrite Hs].
  enter_body Hs.
  destruct (truthy (get schema "type")); simpl; [|done].
  repeat (match goal with
          | |- context [strict_eq_str ?a ?b] =>
              let E := fresh "E" in
              destruct (strict_eq_str a b) eqn:E;
              [apply strict_eq_str_true in E; exfalso; revert E; apply H;
               unfold recognized_tags; set_solver|]
          end; simpl).
  done.
Qed.

(** The [required] list has no influence on the validator: two schema
    nodes that agree on every other property compile alike. *)
Lemma jsonSchemaToZod_required_ignored schema1 schema2 :
  truthy schema1 = truthy schema2 ->
  (forall k, k <> "required" -> get schema1 k = get schema2 k) ->
  translate schema1 = translate schema2.
Proof.
  intros Ht Hk.
  assert (Ran (translate schema1) = Ran (translate schema2)) as [= E];
    [|done].
  rewrite !jsonSchemaToZod_unfold. unfold jsonSchemaToZod_body.
  rewrite <- Ht. destruct (truthy schema1) eqn:Hs; simpl; [|done].
  symmetry in Ht. rewrite !(getProp_truthy _ _ Hs), !(getProp_truthy _ _ Ht).
  simpl.
  rewrite <- (Hk "type"), <- (Hk "properties"), <- (Hk "description"),
    <- (Hk "items") by done.
  destruct (truthy (get schema1 "type")); simpl; [|done].
  case_switch; try done.
  match goal with
  | |- context [mbind _ ?m] => destruct m as [[shape|e]|]
  end; simpl; try done.
  rewrite !forEach_required_id.
  by case_ifs.
Qed.

(** C4.  A schema node that is absent ([null], [undefined] or otherwise
    falsy), or whose [type] is missing or falsy, or whose [type] is none of
    [object], [string], [number], [boolean], [array], compiles without
    failure to the bare accept-anything validator, which accepts every
    value. *)
Theorem jsonSchemaToZod_fallback_accepts_anything schema :
  truthy schema = false
  \/ truthy (get schema "type") = false
  \/ (forall tag, tag ∈ recognized_tags -> get schema "type" <> JStr tag) ->
  translate schema = Normal z_any /\ forall v, accepts z_any v = true.
Proof.
  intros H. split; [|done].
  assert (Ran (translate schema) = Ran (Normal z_any)) as [= E]; [|done].
  rewrite jsonSchemaToZod_unfold.
  destruct H as [H|[H|H]].
  - unfold jsonSchemaToZod_body. by rewrite H.
  - unfold jsonSchemaToZod_body.
    destruct (truthy schema) eqn:Hs; simpl; [|done].
    rewrite !(getProp_truthy _ _ Hs). simpl. by rewrite H.
  - by apply jsonSchemaToZod_body_default.
Qed.

(** What a node with a given recognised primitive tag compiles to. *)
Lemma jsonSchemaToZod_primitive_node schema tag z0 :
  (tag, z0) ∈ [("string", z_string); ("number", z_number);
               ("boolean", z_boolean)] ->
  get schema "type" = JStr tag ->
  translate schema
  = Normal (if truthy (get schema "description")
            then describe z0 (get schema "description") else z0).
Proof.
  intros Hin H.
  assert (truthy schema = true) as Hs by (by destruct schema).
  match goal with
  | |- ?l = ?r => assert (Ran l = Ran r) as [= E]; [|done]
  end.
  rewrite jsonSchemaToZod_unfold. unfold jsonSchemaToZod_body.
  rewrite Hs; simpl. rewrite !(getProp_truthy _ _ Hs), H; simpl.
  apply elem_of_cons in Hin as [[= -> ->]|Hin]; [done|].
  apply elem_of_cons in Hin as [[= -> ->]|Hin]; [done|].
  apply list_elem_of_singleton in Hin as [= -> ->]. done.
Qed.

(** C7.  A schema node tagged [string], [number] or [boolean] compiles to
    the primitive validator of that kind, which accepts a value exactly when
    it is a string, a number (zod classifies [NaN] as "nan", not as a
    number), or a boolean. *)
Theorem jsonSchemaToZod_primitive_kinds schema :
  (get schema "type" = JStr "string" ->
   exists d, translate schema = Normal (ZodString d)
             /\ forall v, accepts (ZodString d) v = true
                          <-> typeof v = "string")
  /\ (get schema "type" = JStr "number" ->
      exists d, translate schema = Normal (ZodNumber d)
                /\ forall v, accepts (ZodNumber d) v = true
                             <-> exists n, v = JNum n
                                           /\ PrimFloat.is_nan n = false)
  /\ (get schema "type" = JStr "boolean" ->
      exists d, translate schema = Normal (ZodBoolean d)
                /\ forall v, accepts (ZodBoolean d) v = true
                             <-> typeof v = "boolean").
Proof.
  split; [|split]; intros H.
  - rewrite (jsonSchemaToZod_primitive_node schema "string" z_string)
      by (done || set_solver).
    exists (if truthy (get schema "description")
            then Some (get schema "description") else None).
    split; [by destruct (truthy (get schema "description"))|].
    intros v. by destruct v.
  - rewrite (jsonSchemaToZod_primitive_node schema "number" z_number)
      by (done || set_solver).
    exists (if truthy (get schema "description")
            then Some (get schema "description") else None).
    split; [by destruct (truthy (get schema "description"))|].
    intros v. destruct v; simpl;
      try (split; [discriminate|by intros (n0 & [=] & _)]).
    rewrite negb_true_iff. split; [by eauto|].
    by intros (n0 & [= ->] & ?).
  - rewrite (jsonSchemaToZod_primitive_node schema "boolean" z_boolean)
      by (done || set_solver).
    exists (if truthy (get schema "description")
            then Some (get schema "description") else None).
    split; [by destruct (truthy (get schema "description"))|].
    intros v. by destruct v.
Qed.

(** C9.  [jsonSchemaToZod] terminates on every schema value.  A call
    consults its recursive calls only at the property values of
    [schema.properties] and at [schema.items]; each of these is strictly
    less deep than [schema]; so the call relation is well founded, and any
    bound larger than the depth of [schema] lets the call run to its
    outcome, the same for every such bound. *)
Theorem jsonSchemaToZod_terminates schema :
  (forall self1 self2,
      (forall v, recursive_argument schema v -> self1 v = self2 v) ->
      translate_body self1 schema = translate_body self2 schema)
  /\ (forall v, recursive_argument schema v -> depth v < depth schema)
  /\ well_founded (fun v schema' => recursive_argument schema' v)
  /\ (forall fuel, depth schema < fuel ->
      translate_fuel fuel schema = Ran (translate schema)).
Proof.
  split; [|split; [|split]].
  - intros self1 self2. apply jsonSchemaToZod_body_ext.
  - apply recursive_argument_depth.
  - apply (well_founded_lt_compat _ depth).
    intros v s. apply recursive_argument_depth.
  - intros fuel. apply jsonSchemaToZod_fuel_enough.
Qed.

(** C1.  The compiled object validator makes every declared field
    mandatory, whether or not [required] lists it: for [profile_schema],
    whose [required] is [["name"]], a value that omits [nickname] is
    rejected. *)
Theorem jsonSchemaToZod_unlisted_field_is_mandatory :
  translate profile_schema
  = Normal (z_object [("name", z_string); ("nickname", z_string)])
  /\ accepts (z_object [("name", z_string); ("nickname", z_string)])
             (JObj [("name", JStr "Ada")]) = false
  /\ accepts (z_object [("name", z_string); ("nickname", z_string)])
             (JObj [("name", JStr "Ada"); ("nickname", JStr "Countess")])
     = true.
Proof.
  split; [|by vm_compute].
  unfold jsonSchemaToZod, profile_schema. cbn -[forEach_required].
  by rewrite forEach_required_id.
Qed.

(** *** Descriptions *)

Lemma getProp_Normal v k d : getProp v k = Normal d -> d = get v k.
Proof. destruct v; simpl; congruence. Qed.

Lemma forEach_properties_other self entries shape0 shape key :
  key ∉ entries.*1 ->
  forEach_properties self entries shape0 = Ran (Normal shape) ->
  assoc key shape = assoc key shape0.
Proof.
  revert shape0. induction entries as [|[k0 v0] rest IH];
    intros shape0 Hnotin; simpl.
  - by intros [= ->].
  - apply not_elem_of_cons in Hnotin as [Hne Hnotin]. simpl in Hne.
    destruct (self v0) as [[zv|e]|]; simpl; try done.
    destruct (getProp v0 "description") as [d|e]; simpl; try done.
    intros H. rewrite (IH _ Hnotin H). by apply assoc_assign_ne.
Qed.

(** The shape holds, under each property name, the compiled property value,
    described by the property's own description when it has one. *)
Lemma forEach_properties_field self entries shape0 shape key value :
  NoDup entries.*1 ->
  assoc key entries = Some value ->
  forEach_properties self entries shape0 = Ran (Normal shape) ->
  exists zv,
    self value = Ran (Normal zv)
    /\ getProp value "description" = Normal (get value "description")
    /\ assoc key shape
       = Some (if truthy (get value "description")
               then describe zv (get value "description") else zv).
Proof.
  revert shape0. induction entries as [|[k0 v0] rest IH];
    intros shape0 Hnd; simpl; [done|].
  apply NoDup_cons in Hnd as [Hnotin Hnd]. simpl in Hnotin.
  destruct (String.eqb k0 key) eqn:E.
  - apply String.eqb_eq in E. subst k0. intros [= ->].
    destruct (self value) as [[zv|e]|]; simpl; try done.
    destruct (getProp value "description") as [d|e] eqn:Hd; simpl; try done.
    apply getProp_Normal in Hd as ->. intros H. exists zv.
    split; [done|split; [done|]].
    rewrite (forEach_properties_other _ _ _ _ _ Hnotin H).
    apply assoc_assign_eq.
  - intros Hv.
    destruct (self v0) as [[zv0|e]|]; simpl; try done.
    destruct (getProp v0 "description") as [d|e]; simpl; try done.
    by apply IH.
Qed.

Lemma indexed_keys {A : Type} (l : list A) i k :
  k ∈ (indexed i l).*1 -> exists j, i <= j /\ k = pretty j.
Proof.
  revert i. induction l as [|x l IH]; simpl; intros i H.
  - by apply elem_of_nil in H.
  - apply elem_of_cons in H as [->|H]; [by eauto|].
    apply IH in H as (j & Hj & ->). exists j. split; [lia|done].
Qed.

Lemma NoDup_indexed {A : Type} (l : list A) i :
  NoDup ((indexed i l).*1).
Proof.
  revert i. induction l as [|x l IH]; simpl; intros i; constructor; auto.
  intros H. apply indexed_keys in H as (j & Hj & Heq).
  apply (inj pretty) in Heq. lia.
Qed.

Lemma unique_keys_field fields k v :
  unique_keys (JObj fields) = true -> (k, v) ∈ fields ->
  unique_keys v = true.
Proof.
  simpl. intros [_ H]%andb_true_iff Hin.
  rewrite forallb_forall in H. apply (H (k, v)).
  by apply list_elem_of_In.
Qed.

Lemma unique_keys_get schema k :
  unique_keys schema = true -> unique_keys (get schema k) = true.
Proof.
  destruct schema; try done. intros H. unfold get.
  destruct (assoc k fields) as [v|] eqn:E; [|done].
  apply assoc_elem_of in E. by eapply unique_keys_field.
Qed.

Lemma unique_keys_entries v k x :
  unique_keys v = true -> (k, x) ∈ Object_entries v ->
  unique_keys x = true /\ NoDup (Object_entries v).*1.
Proof.
  destruct v; simpl; intros H Hin; try (by apply elem_of_nil in Hin).
  - split; [|apply NoDup_indexed].
    apply elem_of_indexed in Hin. clear H.
    induction s as [|c s IH]; simpl in Hin.
    + by apply elem_of_nil in Hin.
    + apply elem_of_cons in Hin as [->|Hin]; auto.
  - split; [|apply NoDup_indexed].
    apply elem_of_indexed in Hin. rewrite forallb_forall in H.
    apply H. by apply list_elem_of_In.
  - split; [by eapply (unique_keys_field fields)|].
    apply andb_true_iff in H as [H _]. by apply bool_decide_eq_true in H.
Qed.

Lemma unique_keys_child schema s child :
  unique_keys schema = true -> schema_child schema s = Some child ->
  unique_keys child = true.
Proof.
  intros H. destruct s as [key|]; simpl.
  - destruct (_ && _); [|done]. intros E. apply assoc_elem_of in E.
    eapply unique_keys_entries; [|done]. by apply unique_keys_get.
  - destruct (_ && _); [|done]. intros [= <-]. by apply unique_keys_get.
Qed.

(** What an [object] node compiles to. *)
Lemma jsonSchemaToZod_object_inv schema z :
  get schema "type" = JStr "object" ->
  translate schema = Normal z ->
  exists shape,
    (if truthy (get schema "properties")
     then forEach_properties (fun v => Ran (translate v))
            (Object_entries (get schema "properties")) []
     else mret []) = Ran (Normal shape)
    /\ z = (if truthy (get schema "description")
            then describe (z_object shape) (get schema "description")
            else z_object shape).
Proof.
  intros H Hz.
  assert (truthy schema = true) as Hs by (by destruct schema).
  pose proof (jsonSchemaToZod_unfold schema) as Hu. rewrite Hz in Hu.
  unfold jsonSchemaToZod_body in Hu. rewrite Hs in Hu; simpl in Hu.
  rewrite !(getProp_truthy _ _ Hs), H in Hu; simpl in Hu.
  match type of Hu with
  | context [mbind _ ?m] => destruct m as [[shape|e]|]
  end; simpl in Hu; try done.
  rewrite forEach_required_id in Hu. exists shape. split; [done|].
  injection Hu as ->.
  by case_ifs.
Qed.

(** What an [array] node compiles to. *)
Lemma jsonSchemaToZod_array_inv schema z :
  get schema "type" = JStr "array" ->
  translate schema = Normal z ->
  exists element,
    (if truthy (get schema "items")
     then translate (get schema "items") else Normal z_any) = Normal element
    /\ z = (if truthy (get schema "description")
            then describe (z_array element) (get schema "description")
            else z_array element).
Proof.
  intros H Hz.
  assert (truthy schema = true) as Hs by (by destruct schema).
  pose proof (jsonSchemaToZod_unfold schema) as Hu. rewrite Hz in Hu.
  unfold jsonSchemaToZod_body in Hu. rewrite Hs in Hu; simpl in Hu.
  rewrite !(getProp_truthy _ _ Hs), H in Hu; simpl in Hu.
  destruct (truthy (get schema "items")); simpl in Hu.
  - destruct (translate (get schema "items")) as [element|e];
      simpl in Hu; [|done].
    exists element. split; [done|]. by injection Hu as ->.
  - exists z_any. split; [done|]. by injection Hu as ->.
Qed.

(** A node with a recognised tag passes its description on. *)
Lemma jsonSchemaToZod_description schema z tag :
  tag ∈ recognized_tags ->
  get schema "type" = JStr tag ->
  truthy (get schema "description") = true ->
  translate schema = Normal z ->
  description z = Some (get schema "description").
Proof.
  intros Hin H Hd Hz. unfold recognized_tags in Hin.
  apply elem_of_cons in Hin as [->|Hin].
  { destruct (jsonSchemaToZod_object_inv _ _ H Hz) as (shape & _ & ->).
    by rewrite Hd. }
  apply elem_of_cons in Hin as [->|Hin].
  { rewrite (jsonSchemaToZod_primitive_node schema "string" z_string)
      in Hz by (done || set_solver).
    rewrite Hd in Hz. by injection Hz as <-. }
  apply elem_of_cons in Hin as [->|Hin].
  { rewrite (jsonSchemaToZod_primitive_node schema "number" z_number)
      in Hz by (done || set_solver).
    rewrite Hd in Hz. by injection Hz as <-. }
  apply elem_of_cons in Hin as [->|Hin].
  { rewrite (jsonSchemaToZod_primitive_node schema "boolean" z_boolean)
      in Hz by (done || set_solver).
    rewrite Hd in Hz. by injection Hz as <-. }
  apply list_elem_of_singleton in Hin as ->.
  destruct (jsonSchemaToZod_array_inv _ _ H Hz) as (element & _ & ->).
  by rewrite Hd.
Qed.

Lemma validator_child_describe z d s :
  validator_child (describe z d) s = validator_child z s.
Proof. by destruct z, s. Qed.

(** The children of a compiled node are the compiled children. *)
Lemma jsonSchemaToZod_child schema z s child :
  unique_keys schema = true ->
  translate schema = Normal z ->
  schema_child schema s = Some child ->
  exists zc,
    translate child = Normal zc
    /\ validator_child z s
       = Some (match s with
               | Field _ =>
                   if truthy (get child "description")
                   then describe zc (get child "description") else zc
               | Items => zc
               end).
Proof.
  intros Hu Hz. destruct s as [key|]; simpl.
  - destruct (strict_eq_str _ _) eqn:Ht; [|done].
    apply strict_eq_str_true in Ht.
    destruct (truthy (get schema "properties")) eqn:Hp; [|done]. simpl.
    intros Hc.
    destruct (jsonSchemaToZod_object_inv _ _ Ht Hz) as (shape & Hf & ->).
    rewrite Hp in Hf.
    pose proof (assoc_elem_of _ _ _ Hc) as Hin.
    apply (unique_keys_entries _ _ _ (unique_keys_get _ "properties" Hu))
      in Hin as [_ Hnd].
    destruct (forEach_properties_field _ _ _ _ _ _ Hnd Hc Hf)
      as (zv & [= Hv] & _ & Ha).
    exists zv. split; [done|].
    by destruct (truthy (get schema "description")).
  - destruct (strict_eq_str _ _) eqn:Ht; [|done].
    apply strict_eq_str_true in Ht.
    destruct (truthy (get schema "items")) eqn:Hi; [|done]. simpl.
    intros [= <-].
    destruct (jsonSchemaToZod_array_inv _ _ Ht Hz) as (element & He & ->).
    rewrite Hi in He. exists element. split; [done|].
    by destruct (truthy (get schema "description")).
Qed.

Lemma descriptions_preserved_from start path schema z node :
  unique_keys schema = true ->
  translate schema = Normal z ->
  schema_at schema path = Some node ->
  truthy (get node "description") = true ->
  (exists tag, tag ∈ recognized_tags /\ get node "type" = JStr tag)
  \/ reached_as_field start path = true ->
  exists zn,
    validator_at
      (if start && truthy (get schema "description")
       then describe z (get schema "description") else z) path = Some zn
    /\ description zn = Some (get node "description").
Proof.
  revert start schema z.
  induction path as [|s path IH]; intros start schema z Hu Hz; simpl.
  - intros [= <-] Hd Hcase. rewrite Hd, andb_true_r.
    destruct start; [eexists; split; [done|by destruct z]|].
    destruct Hcase as [(tag & Hin & Ht)|?]; [|done].
    exists z. split; [done|]. by eapply jsonSchemaToZod_description.
  - destruct (schema_child schema s) as [child|] eqn:Hc; [|done]. simpl.
    intros Hn Hd Hcase.
    destruct (jsonSchemaToZod_child _ _ _ _ Hu Hz Hc) as (zc & Hzc & Hv).
    assert (validator_child
              (if start && truthy (get schema "description")
               then describe z (get schema "description") else z) s
            = validator_child z s) as ->.
    { destruct (_ && _); [apply validator_child_describe|done]. }
    rewrite Hv. simpl.
    pose proof (unique_keys_child _ _ _ Hu Hc) as Huc.
    destruct s as [key|].
    + apply (IH true child zc Huc Hzc Hn Hd Hcase).
    + apply (IH false child zc Huc Hzc Hn Hd Hcase).
Qed.

(** C8.  In a schema tree that compiles, every node the translator reaches
    that carries a (truthy) [description] has it on the corresponding node
    of the compiled validator: every node tagged [object], [string],
    [number], [boolean] or [array], and every object field whatever its
    tag. *)
Theorem jsonSchemaToZod_preserves_descriptions schema z path node :
  unique_keys schema = true ->
  translate schema = Normal z ->
  schema_at schema path = Some node ->
  truthy (get node "description") = true ->
  (exists tag, tag ∈ recognized_tags /\ get node "type" = JStr tag)
  \/ reached_as_field false path = true ->
  exists zn,
    validator_at z path = Some zn
    /\ description zn = Some (get node "description").
Proof.
  intros Hu Hz Hn Hd Hcase.
  apply (descriptions_preserved_from false path schema z node Hu Hz Hn Hd
           Hcase).
Qed.

End TranslatorFacts.

(** ** The [Agent] constructor *)

Section AgentFacts.

Variable ToPropertyKey : JValue -> string.
Variable process_env : gmap string string.
Variable loadAgentFromFile : string -> Completion AgentDefinition.
Variable loadAgentDefinition : string -> Completion AgentDefinition.

Local Abbreviation resolve :=
  (resolveDefinition loadAgentFromFile loadAgentDefinition).
Local Abbreviation select := (selectModelClient process_env).
Local Abbreviation compile := (compileOutputSchema ToPropertyKey).
Local Abbreviation construct :=
  (new_Agent ToPropertyKey process_env loadAgentFromFile loadAgentDefinition).

Lemma present_Some (o : option string) :
  present o = true -> o = Some (default "" o).
Proof. by destruct o. Qed.

(** The constructor, step by step, once the definition is resolved. *)
Lemma new_Agent_resolved options agentDef :
  completion (resolve options) = Normal agentDef ->
  construct options
  = mkEff (events (resolve options)) (Normal agentDef)
    ≫= (fun agentDef =>
          modelClient ← select agentDef;
          outputSchema ← compile agentDef;
          emit NewBaseAgent;;
          mret {| agent :=
                    new_BaseAgent
                      {| config_name := name agentDef;
                         config_description := def_description agentDef;
                         systemPromptTemplate := system_prompt agentDef;
                         dynamicVariables :=
                           default [] (dynamic_variables agentDef) |}
                      modelClient
                      outputSchema |}).
Proof.
  intros H. unfold new_Agent.
  destruct (resolve options) as [evs c]. simpl in H. by subst c.
Qed.

(** How the schema step ends: with a validator (or none), or with the one
    wrapped error, the raw one having gone to the console. *)
Lemma compileOutputSchema_outcome agentDef :
  (truthy (output_schema agentDef) = false
   /\ compile agentDef = mkEff [] (Normal None))
  \/ (exists z,
        truthy (output_schema agentDef) = true
        /\ jsonSchemaToZod ToPropertyKey (output_schema agentDef) = Normal z
        /\ compile agentDef = mkEff [] (Normal (Some z)))
  \/ (exists e,
        truthy (output_schema agentDef) = true
        /\ jsonSchemaToZod ToPropertyKey (output_schema agentDef) = Throw e
        /\ compile agentDef
           = mkEff [ConsoleError "Error converting output schema:" e]
               (Throw
                  (Error "Failed to convert output schema to Zod schema"))).
Proof.
  unfold compileOutputSchema.
  destruct (truthy (output_schema agentDef)); [|by left].
  right.
  destruct (jsonSchemaToZod ToPropertyKey (output_schema agentDef))
    as [z|e]; [left|right]; eauto.
Qed.

(** The constructor after a successful selection step. *)
Lemma new_Agent_selected options agentDef evs mc :
  completion (resolve options) = Normal agentDef ->
  select agentDef = mkEff evs (Normal mc) ->
  (exists a, completion (construct options) = Normal a
             /\ modelClient (agent a) = mc)
  \/ completion (construct options)
     = Throw (Error "Failed to convert output schema to Zod schema").
Proof.
  intros Hr Hs. rewrite (new_Agent_resolved _ _ Hr).
  unfold mbind, Eff_bind; simpl. rewrite Hs; simpl.
  destruct (compileOutputSchema_outcome agentDef)
    as [[_ ->]|[(z & _ & _ & ->)|(e & _ & _ & ->)]]; simpl; eauto.
Qed.

Lemma resolveDefinition_events options :
  forallb offline (events (resolve options))
  = true.
Proof.
  unfold resolveDefinition.
  by case_ifs.
Qed.

(** C2.  For each supported provider, once the agent definition is
    resolved: if the provider's environment variable is set (and not
    empty), the constructor builds that provider's client with that
    credential and goes on, so that construction ends with an agent around
    that client or with the schema error; if it is not set, the constructor
    throws ["<VARIABLE> not set"] having only called the loader: no model
    client is constructed and no request is sent. *)
Theorem new_Agent_credential_check options agentDef provider credential :
  (provider, credential) ∈ supported_providers ->
  completion (resolve options) = Normal agentDef ->
  client agentDef = provider ->
  (present (process_env !! credential) = true ->
   exists mc,
     select agentDef = mkEff [NewModelClient provider] (Normal mc)
     /\ client_modelType mc = provider
     /\ process_env !! credential = Some (client_apiKey mc)
     /\ ((exists a, completion (construct options) = Normal a
                    /\ modelClient (agent a) = mc)
         \/ completion (construct options)
            = Throw (Error "Failed to convert output schema to Zod schema")))
  /\ (present (process_env !! credential) = false ->
      construct options
      = mkEff (events (resolve options))
          (Throw (Error (credential +:+ " not set")))
      /\ forallb offline (events (construct options)) = true).
Proof.
  intros Hin Hr Hc. unfold supported_providers in Hin.
  assert (forall mc,
    select agentDef = mkEff [NewModelClient provider] (Normal mc) ->
    client_modelType mc = provider ->
    process_env !! credential = Some (client_apiKey mc) ->
    exists mc,
     select agentDef = mkEff [NewModelClient provider] (Normal mc)
     /\ client_modelType mc = provider
     /\ process_env !! credential = Some (client_apiKey mc)
     /\ ((exists a, completion (construct options) = Normal a
                    /\ modelClient (agent a) = mc)
         \/ completion (construct options)
            = Throw (Error "Failed to convert output schema to Zod schema")))
    as Hok.
  { intros mc Hs Ht Hk. exists mc. repeat split; try done.
    by eapply new_Agent_selected. }
  assert (select agentDef = throw (Error (credential +:+ " not set")) ->
    construct options
      = mkEff (events (resolve options))
          (Throw (Error (credential +:+ " not set")))
      /\ forallb offline (events (construct options)) = true) as Hko.
  { intros Hs.
    assert (construct options
            = mkEff (events (resolve options))
                (Throw (Error (credential +:+ " not set")))) as ->.
    { rewrite (new_Agent_resolved _ _ Hr).
      unfold mbind, Eff_bind; simpl. rewrite Hs; simpl.
      by rewrite app_nil_r. }
    split; [done|]. apply resolveDefinition_events. }
  split; intros Hp.
  - apply elem_of_cons in Hin as [[= -> ->]|Hin].
    { eapply Hok; [unfold selectModelClient; rewrite Hc; simpl;
                   rewrite Hp; reflexivity|done|by apply present_Some]. }
    apply elem_of_cons in Hin as [[= -> ->]|Hin].
    { eapply Hok; [unfold selectModelClient; rewrite Hc; simpl;
                   rewrite Hp; reflexivity|done|by apply present_Some]. }
    apply list_elem_of_singleton in Hin as [= -> ->].
    eapply Hok; [unfold selectModelClient; rewrite Hc; simpl;
                 rewrite Hp; reflexivity|done|by apply present_Some].
  - apply Hko. unfold selectModelClient. rewrite Hc.
    apply elem_of_cons in Hin as [[= -> ->]|Hin]; [simpl; by rewrite Hp|].
    apply elem_of_cons in Hin as [[= -> ->]|Hin]; [simpl; by rewrite Hp|].
    apply list_elem_of_singleton in Hin as [= -> ->].
    simpl; by rewrite Hp.
Qed.

(** C3.  Once the agent definition is resolved, a provider identifier that
    is none of [openai], [anthropic], [fireworks] makes the constructor
    throw ["Unsupported model client: <identifier>"], whatever the
    environment holds, with no model client constructed. *)
Theorem new_Agent_unsupported_provider options agentDef :
  completion (resolve options) = Normal agentDef ->
  client agentDef ∉ supported_providers.*1 ->
  construct options
  = mkEff (events (resolve options))
      (Throw (Error ("Unsupported model client: " +:+ client agentDef))).
Proof.
  intros Hr Hc. rewrite (new_Agent_resolved _ _ Hr).
  unfold mbind, Eff_bind; simpl.
  assert (select agentDef
          = throw (Error ("Unsupported model client: " +:+ client agentDef)))
    as ->.
  { unfold selectModelClient.
    repeat match goal with
           | |- context [String.eqb ?a ?b] =>
               let E := fresh "E" in
               destruct (String.eqb a b) eqn:E;
               [apply String.eqb_eq in E; exfalso; apply Hc; rewrite E;
                unfold supported_providers; simpl; set_solver|]
           end.
    done. }
  simpl. by rewrite app_nil_r.
Qed.

(** C5, as the constructor has it.  With neither [agentName] nor
    [agentConfigPath] (absent or empty), the constructor throws the
    configuration error having done nothing else: no loader is called, no
    provider selected.  With [agentConfigPath], the definition is loaded
    from that file, whether or not [agentName] is given as well; with
    [agentName] alone, it is looked up in the registry. *)
Theorem new_Agent_resolution_modes options :
  (present (agentName options) = false ->
   present (agentConfigPath options) = false ->
   construct options
   = mkEff []
       (Throw (Error "You must provide either agentName or agentConfigPath")))
  /\ (forall path,
        agentConfigPath options = Some path -> path <> "" ->
        resolve options
        = mkEff [LoadAgentFromFile path] (loadAgentFromFile path))
  /\ (forall name,
        agentName options = Some name -> name <> "" ->
        present (agentConfigPath options) = false ->
        resolve options
        = mkEff [LoadAgentDefinition name] (loadAgentDefinition name)).
Proof.
  split; [|split].
  - intros Hn Hp. unfold new_Agent, resolveDefinition. by rewrite Hn, Hp.
  - intros path Hp Hne. unfold resolveDefinition. rewrite Hp. simpl.
    apply String.eqb_neq in Hne. by rewrite Hne.
  - intros name Hn Hne Hp. unfold resolveDefinition. rewrite Hp, Hn. simpl.
    apply String.eqb_neq in Hne. by rewrite Hne.
Qed.

(** C6.  When the definition has an output schema and compiling it throws,
    the constructor throws the one message ["Failed to convert output schema
    to Zod schema"], whatever the exception was; the exception itself only
    goes to the console.  That message is none of the credential messages
    and not an unsupported-provider message. *)
Theorem new_Agent_schema_failure options agentDef mc e :
  completion (resolve options) = Normal agentDef ->
  completion (select agentDef) = Normal mc ->
  truthy (output_schema agentDef) = true ->
  jsonSchemaToZod ToPropertyKey (output_schema agentDef) = Throw e ->
  construct options
  = mkEff (events (resolve options) ++ events (select agentDef)
           ++ [ConsoleError "Error converting output schema:" e])
      (Throw (Error "Failed to convert output schema to Zod schema"))
  /\ (forall credential,
        credential ∈ supported_providers.*2 ->
        "Failed to convert output schema to Zod schema"
        <> credential +:+ " not set")
  /\ (forall identifier,
        "Failed to convert output schema to Zod schema"
        <> "Unsupported model client: " +:+ identifier).
Proof.
  intros Hr Hs Ht He. split; [|split].
  - rewrite (new_Agent_resolved _ _ Hr).
    unfold mbind, Eff_bind; simpl. rewrite Hs; simpl.
    unfold compileOutputSchema. by rewrite Ht, He.
  - intros credential Hin. unfold supported_providers in Hin. simpl in Hin.
    repeat (apply elem_of_cons in Hin as [->|Hin]; [done|]).
    by apply elem_of_nil in Hin.
  - by intros identifier.
Qed.

End AgentFacts.

(** ** The [get-tweets] command *)

Section GetTweetsFacts.

Variable getTweets : JValue -> JValue -> Completion (list string).

(** C10.  The handler never throws: for every argument value it returns a
    result with an [output] string.  When reading the arguments or fetching
    the tweets throws, or the fetched lines joined by newlines start with
    ["Error"], the output starts with the cross mark; otherwise it starts
    with the memo sign. *)
Theorem handler_never_throws args :
  exists out,
    handler getTweets args = Normal {| output := out |}
    /\ startsWith out
         match (username ← getProp args "username";
                limit ← getProp args "limit";
                getTweets username limit) with
         | Throw _ => "❌"
         | Normal result =>
             if startsWith (join result newline) "Error" then "❌" else "📝"
         end = true.
Proof.
  unfold handler.
  destruct (getProp args "username") as [username|e]; simpl;
    [|by eexists].
  destruct (getProp args "limit") as [limit|e]; simpl; [|by eexists].
  destruct (getTweets username limit) as [result|e]; simpl; [|by eexists].
  destruct (startsWith (join result newline) "Error"); by eexists.
Qed.

End GetTweetsFacts.

(** ** The properties at the sample inputs *)

(** C4 at [integer_schema]. *)
Lemma jsonSchemaToZod_fallback_accepts_anything_witness :
  (forall tag, tag ∈ recognized_tags ->
               get integer_schema "type" <> JStr tag)
  /\ jsonSchemaToZod sample_ToPropertyKey integer_schema = Normal z_any
  /\ forall v, accepts z_any v = true.
Proof.
  assert (forall tag, tag ∈ recognized_tags ->
                      get integer_schema "type" <> JStr tag) as H.
  { intros tag Hin [= <-]. revert Hin. unfold recognized_tags.
    rewrite !elem_of_cons, elem_of_nil. intros [|[|[|[|[|[]]]]]]; discriminate. }
  split; [exact H|].
  apply (jsonSchemaToZod_fallback_accepts_anything sample_ToPropertyKey
           integer_schema).
  right. right. exact H.
Defined.

(** C7 at [number_schema]. *)
Lemma jsonSchemaToZod_primitive_kinds_witness :
  get number_schema "type" = JStr "number"
  /\ exists d,
      jsonSchemaToZod sample_ToPropertyKey number_schema = Normal (ZodNumber d)
      /\ forall v, accepts (ZodNumber d) v = true
                   <-> exists n, v = JNum n /\ PrimFloat.is_nan n = false.
Proof.
  split; [reflexivity|].
  apply (proj1 (proj2 (jsonSchemaToZod_primitive_kinds sample_ToPropertyKey
                         number_schema))).
  reflexivity.
Defined.

(** C8 at [report_schema]: the element node of the [tags] array. *)
Lemma jsonSchemaToZod_preserves_descriptions_witness :
  unique_keys report_schema = true
  /\ jsonSchemaToZod sample_ToPropertyKey report_schema
     = Normal
         (ZodObject
            [("tags",
              ZodArray (ZodString (Some (JStr "one tag"))) None);
             ("score", ZodAny (Some (JStr "0 to 10")))]
            (Some (JStr "a report")))
  /\ schema_at report_schema [Field "tags"; Items]
     = Some (JObj [("type", JStr "string"); ("description", JStr "one tag")])
  /\ exists zn,
      validator_at
        (ZodObject
           [("tags",
             ZodArray (ZodString (Some (JStr "one tag"))) None);
            ("score", ZodAny (Some (JStr "0 to 10")))]
           (Some (JStr "a report")))
        [Field "tags"; Items] = Some zn
      /\ description zn = Some (JStr "one tag").
Proof.
  split; [by vm_compute|]. split; [by vm_compute|]. split; [by vm_compute|].
  apply (jsonSchemaToZod_preserves_descriptions sample_ToPropertyKey
           report_schema _ [Field "tags"; Items]
           (JObj [("type", JStr "string"); ("description", JStr "one tag")])).
  - by vm_compute.
  - by vm_compute.
  - by vm_compute.
  - reflexivity.
  - left. exists "string". split; [|reflexivity].
    unfold recognized_tags. rewrite !elem_of_cons. tauto.
Defined.

(** C9 at [report_schema], with a bound of ten calls. *)
Lemma jsonSchemaToZod_terminates_witness :
  depth report_schema < 10
  /\ jsonSchemaToZod_fuel sample_ToPropertyKey 10 report_schema
     = Ran (jsonSchemaToZod sample_ToPropertyKey report_schema).
Proof.
  assert (depth report_schema < 10) as H by (vm_compute; lia).
  split; [exact H|].
  apply (proj2 (proj2 (proj2 (jsonSchemaToZod_terminates sample_ToPropertyKey
                                report_schema)))).
  exact H.
Defined.

(** C2 at the [summarizer], with the key set and in an empty environment. *)
Lemma new_Agent_credential_check_witness :
  (exists mc,
      selectModelClient sample_env summarizer
      = mkEff [NewModelClient "openai"] (Normal mc)
      /\ client_modelType mc = "openai"
      /\ sample_env !! "OPENAI_API_KEY" = Some (client_apiKey mc)
      /\ ((exists a,
              completion (new_Agent sample_ToPropertyKey sample_env
                            sample_loadAgentFromFile
                            sample_loadAgentDefinition
                            (by_name "summarizer")) = Normal a
              /\ modelClient (agent a) = mc)
          \/ completion (new_Agent sample_ToPropertyKey sample_env
                           sample_loadAgentFromFile sample_loadAgentDefinition
                           (by_name "summarizer"))
             = Throw (Error "Failed to convert output schema to Zod schema")))
  /\ new_Agent sample_ToPropertyKey ∅ sample_loadAgentFromFile
       sample_loadAgentDefinition (by_name "summarizer")
     = mkEff [LoadAgentDefinition "summarizer"]
         (Throw (Error "OPENAI_API_KEY not set")).
Proof.
  assert (("openai", "OPENAI_API_KEY") ∈ supported_providers) as Hin.
  { unfold supported_providers. rewrite !elem_of_cons. tauto. }
  split.
  - apply (proj1 (new_Agent_credential_check sample_ToPropertyKey sample_env
                    sample_loadAgentFromFile sample_loadAgentDefinition
                    (by_name "summarizer") summarizer
                    "openai" "OPENAI_API_KEY" Hin eq_refl eq_refl)).
    by vm_compute.
  - apply (proj2 (new_Agent_credential_check sample_ToPropertyKey ∅
                    sample_loadAgentFromFile sample_loadAgentDefinition
                    (by_name "summarizer") summarizer
                    "openai" "OPENAI_API_KEY" Hin eq_refl eq_refl)).
    by vm_compute.
Defined.

(** C3 at the [oracle], whose provider is ["grok"]. *)
Lemma new_Agent_unsupported_provider_witness :
  (client oracle ∉ supported_providers.*1)
  /\ new_Agent sample_ToPropertyKey sample_env sample_loadAgentFromFile
       sample_loadAgentDefinition (by_name "oracle")
     = mkEff [LoadAgentDefinition "oracle"]
         (Throw (Error "Unsupported model client: grok")).
Proof.
  assert (client oracle ∉ supported_providers.*1) as H.
  { unfold supported_providers. simpl.
    rewrite !elem_of_cons, elem_of_nil. intros [|[|[|[]]]]; discriminate. }
  split; [exact H|].
  apply (new_Agent_unsupported_provider sample_ToPropertyKey sample_env
           sample_loadAgentFromFile sample_loadAgentDefinition
           (by_name "oracle") oracle eq_refl H).
Defined.

(** C5 as stated fails: with both options given the constructor does not
    fail; it loads the file, ignores the name, and builds the agent. *)
Lemma new_Agent_accepts_both_options :
  exactly_one_mode both_options = false
  /\ exists a,
      new_Agent sample_ToPropertyKey sample_env sample_loadAgentFromFile
        sample_loadAgentDefinition both_options
      = mkEff [LoadAgentFromFile "agents/summarizer.yaml";
               NewModelClient "openai"; NewBaseAgent]
          (Normal a).
Proof.
  split; [reflexivity|]. eexists. by vm_compute.
Qed.

(** C5, amended, at [no_options] and [both_options]. *)
Lemma new_Agent_resolution_modes_witness :
  new_Agent sample_ToPropertyKey sample_env sample_loadAgentFromFile
    sample_loadAgentDefinition no_options
  = mkEff []
      (Throw (Error "You must provide either agentName or agentConfigPath"))
  /\ resolveDefinition sample_loadAgentFromFile sample_loadAgentDefinition
       both_options
     = mkEff [LoadAgentFromFile "agents/summarizer.yaml"] (Normal summarizer).
Proof.
  split.
  - apply (proj1 (new_Agent_resolution_modes sample_ToPropertyKey sample_env
                    sample_loadAgentFromFile sample_loadAgentDefinition
                    no_options)); reflexivity.
  - apply (proj1 (proj2 (new_Agent_resolution_modes sample_ToPropertyKey
                           sample_env sample_loadAgentFromFile
                           sample_loadAgentDefinition both_options))
             "agents/summarizer.yaml" eq_refl).
    discriminate.
Defined.

(** C6 at the [counter], whose schema has a property without a schema. *)
Lemma new_Agent_schema_failure_witness :
  jsonSchemaToZod sample_ToPropertyKey (output_schema counter)
  = Throw (TypeError "Cannot read properties of null (reading 'description')")
  /\ new_Agent sample_ToPropertyKey sample_env sample_loadAgentFromFile
       sample_loadAgentDefinition (by_name "counter")
     = mkEff [LoadAgentDefinition "counter"; NewModelClient "openai";
              ConsoleError "Error converting output schema:"
                (TypeError
                   "Cannot read properties of null (reading 'description')")]
         (Throw (Error "Failed to convert output schema to Zod schema")).
Proof.
  assert (jsonSchemaToZod sample_ToPropertyKey (output_schema counter)
          = Throw (TypeError
                     "Cannot read properties of null (reading 'description')"))
    as He by (by vm_compute).
  assert (completion (selectModelClient sample_env counter)
          = Normal (OpenAI_client (new_OpenAIClient "sk-test" "gpt-4o" [])))
    as Hs by (by vm_compute).
  split; [exact He|].
  exact (proj1 (new_Agent_schema_failure sample_ToPropertyKey sample_env
                  sample_loadAgentFromFile sample_loadAgentDefinition
                  (by_name "counter") counter _ _ eq_refl Hs eq_refl He)).
Defined.

(** C10 at the three kinds of fetch. *)
Lemma handler_never_throws_witness :
  handler sample_getTweets (JObj [("username", JStr "ada")])
  = Normal {| output := "📝 first tweet" +:+ newline +:+ "second tweet" |}
  /\ handler sample_getTweets (JObj [("username", JStr "nobody")])
     = Normal {| output := "❌ Error: user not found" |}
  /\ handler sample_getTweets (JObj [("username", JStr "grace")])
     = Normal {| output := "❌ Error fetching tweets: Error: rate limited" |}
  /\ exists out,
      handler sample_getTweets JNull = Normal {| output := out |}
      /\ startsWith out "❌" = true.
Proof.
  repeat split; try by vm_compute.
  apply (handler_never_throws sample_getTweets JNull).
Defined.


(** ** More on the translator *)

Section TranslatorFailures.

Variable ToPropertyKey : JValue -> string.

Local Abbreviation translate := (jsonSchemaToZod ToPropertyKey).
Local Abbreviation translate_body := (jsonSchemaToZod_body ToPropertyKey).
Local Abbreviation self := (fun v => Ran (translate v)).

Lemma getProp_Throw v k e :
  getProp v k = Throw e ->
  nullish v = true
  /\ (e = TypeError ("Cannot read properties of null (reading '"
                     +:+ k +:+ "')")
      \/ e = TypeError ("Cannot read properties of undefined (reading '"
                        +:+ k +:+ "')")).
Proof. destruct v; simpl; intros [= <-]; auto. Qed.

Lemma nullish_getProp v k :
  nullish v = true -> exists e, getProp v k = Throw e.
Proof. destruct v; simpl; try done; eauto. Qed.

(** Where a throw of the loop over the properties comes from. *)
Lemma forEach_properties_Throw (f : JValue -> Fueled ZodType) entries shape e :
  forEach_properties f entries shape = Ran (Throw e) ->
  exists key value,
    (key, value) ∈ entries
    /\ (f value = Ran (Throw e)
        \/ getProp value "description" = Throw e).
Proof.
  revert shape. induction entries as [|[k0 v0] rest IH]; intros shape; simpl;
    [done|].
  destruct (f v0) as [[zv|e0]|] eqn:Hf; simpl; try done.
  - destruct (getProp v0 "description") as [d|e0] eqn:Hd; simpl.
    + intros H. destruct (IH _ H) as (key & value & Hin & Hc).
      exists key, value. split; [by right|done].
    + intros [= <-]. exists k0, v0. split; [left|by right].
  - intros [= <-]. exists k0, v0. split; [left|by left].
Qed.

(** A property whose value throws makes the loop throw. *)
Lemma forEach_properties_throws (f : JValue -> Fueled ZodType) entries shape
    key value :
  (forall v, f v <> OutOfFuel) ->
  (key, value) ∈ entries ->
  (exists e, f value = Ran (Throw e))
  \/ (exists e, getProp value "description" = Throw e) ->
  exists e, forEach_properties f entries shape = Ran (Throw e).
Proof.
  intros Hf. revert shape.
  induction entries as [|[k0 v0] rest IH]; intros shape Hin Hc.
  - by apply elem_of_nil in Hin.
  - simpl. pose proof (Hf v0) as Hv0.
    destruct (f v0) as [[zv|e0]|] eqn:E0; simpl; [|by eauto|done].
    destruct (getProp v0 "description") as [d|e0] eqn:Hd; simpl; [|by eauto].
    apply elem_of_cons in Hin as [[= <- <-]|Hin].
    + destruct Hc as [[e He]|[e He]]; congruence.
    + by apply IH.
Qed.

(** Where a throw of one call comes from. *)
Lemma jsonSchemaToZod_Throw_inv schema e :
  translate schema = Throw e ->
  (get schema "type" = JStr "object"
   /\ truthy (get schema "properties") = true
   /\ forEach_properties self (Object_entries (get schema "properties")) []
      = Ran (Throw e))
  \/ (get schema "type" = JStr "array"
      /\ truthy (get schema "items") = true
      /\ translate (get schema "items") = Throw e).
Proof.
  intros Hz. pose proof (jsonSchemaToZod_unfold ToPropertyKey schema) as Hu.
  rewrite Hz in Hu.
  destruct (truthy schema) eqn:Hs;
    [|by unfold jsonSchemaToZod_body in Hu; rewrite Hs in Hu].
  unfold jsonSchemaToZod_body in Hu. rewrite Hs in Hu; simpl in Hu.
  rewrite !(getProp_truthy _ _ Hs) in Hu; simpl in Hu.
  destruct (truthy (get schema "type")); simpl in Hu; [|done].
  destruct (strict_eq_str (get schema "type") "object") eqn:Eo.
  { apply strict_eq_str_true in Eo. left. split; [done|].
    destruct (truthy (get schema "properties")); simpl in Hu; [|done].
    split; [done|].
    destruct (forEach_properties _ _ []) as [[shape|e0]|]; simpl in Hu;
      unfold mret, Fueled_ret in Hu; congruence. }
  destruct (strict_eq_str (get schema "type") "string"); [done|].
  destruct (strict_eq_str (get schema "type") "number"); [done|].
  destruct (strict_eq_str (get schema "type") "boolean"); [done|].
  destruct (strict_eq_str (get schema "type") "array") eqn:Ea; [|done].
  apply strict_eq_str_true in Ea. right. split; [done|].
  destruct (truthy (get schema "items")); simpl in Hu; [|done].
  split; [done|].
  destruct (translate (get schema "items")); simpl in Hu;
    unfold mret, Fueled_ret in Hu; congruence.
Qed.

(** A throw of the loop, or of the call on [items], is a throw of the call. *)
Lemma jsonSchemaToZod_object_throws schema e :
  get schema "type" = JStr "object" ->
  truthy (get schema "properties") = true ->
  forEach_properties self (Object_entries (get schema "properties")) []
  = Ran (Throw e) ->
  translate schema = Throw e.
Proof.
  intros Ht Hp Hf.
  assert (truthy schema = true) as Hs by (by destruct schema).
  assert (Ran (translate schema) = Ran (Throw e)) as [= E]; [|done].
  rewrite jsonSchemaToZod_unfold. enter_body Hs.
  by rewrite Ht, Hp, Hf.
Qed.

Lemma jsonSchemaToZod_array_throws schema e :
  get schema "type" = JStr "array" ->
  truthy (get schema "items") = true ->
  translate (get schema "items") = Throw e ->
  translate schema = Throw e.
Proof.
  intros Ht Hi He.
  assert (truthy schema = true) as Hs by (by destruct schema).
  assert (Ran (translate schema) = Ran (Throw e)) as [= E]; [|done].
  rewrite jsonSchemaToZod_unfold. enter_body Hs.
  by rewrite Ht, Hi, He.
Qed.

Lemma NoDup_assoc {A : Type} (o : list (string * A)) k x :
  NoDup o.*1 -> (k, x) ∈ o -> assoc k o = Some x.
Proof.
  induction o as [|[k0 y] o IH]; intros Hnd Hin.
  - by apply elem_of_nil in Hin.
  - apply NoDup_cons in Hnd as [Hnotin Hnd]. simpl.
    apply elem_of_cons in Hin as [[= <- <-]|Hin].
    + by rewrite String.eqb_refl.
    + destruct (String.eqb k0 k) eqn:E; [|by apply IH].
      apply String.eqb_eq in E. subst k0. exfalso. apply Hnotin.
      apply list_elem_of_fmap. by exists (k, x).
Qed.

Lemma reached_as_field_start start path :
  reached_as_field false path = true -> reached_as_field start path = true.
Proof. destruct path as [|[key|] path]; simpl; done. Qed.

Lemma schema_at_cons schema s path child :
  schema_child schema s = Some child ->
  schema_at schema (s :: path) = schema_at child path.
Proof. intros H. simpl. by rewrite H. Qed.



End TranslatorFailures.

Section TranslatorValidators.

Variable ToPropertyKey : JValue -> string.

Local Abbreviation translate := (jsonSchemaToZod ToPropertyKey).

(** Of a schema node the translator uses [type], [properties], [items] and
    [description] only. *)
Lemma jsonSchemaToZod_reads_four_keys schema1 schema2 :
  truthy schema1 = truthy schema2 ->
  (forall k, k ∈ schema_keywords -> get schema1 k = get schema2 k) ->
  translate schema1 = translate schema2.
Proof.
  intros Ht Hk.
  assert (Ran (translate schema1) = Ran (translate schema2)) as [= E];
    [|done].
  rewrite !jsonSchemaToZod_unfold. unfold jsonSchemaToZod_body.
  rewrite <- Ht. destruct (truthy schema1) eqn:Hs; simpl; [|done].
  symmetry in Ht. rewrite !(getProp_truthy _ _ Hs), !(getProp_truthy _ _ Ht).
  simpl.
  rewrite <- (Hk "type"), <- (Hk "properties"), <- (Hk "description"),
    <- (Hk "items") by (unfold schema_keywords; set_solver).
  destruct (truthy (get schema1 "type")); simpl; [|done].
  case_switch; try done.
  match goal with
  | |- context [mbind _ ?m] => destruct m as [[shape|e]|]
  end; simpl; try done.
  rewrite !forEach_required_id.
  by case_ifs.
Qed.


Lemma accepts_describe z d v : accepts (describe z d) v = accepts z v.
Proof. by destruct z. Qed.

(** A validator compiled from a node with a recognised tag rejects
    [undefined] and [null]. *)
Lemma jsonSchemaToZod_rejects_nullish schema z tag v :
  tag ∈ recognized_tags ->
  get schema "type" = JStr tag ->
  translate schema = Normal z ->
  nullish v = true ->
  accepts z v = false.
Proof.
  intros Hin Ht Hz Hv. unfold recognized_tags in Hin.
  apply elem_of_cons in Hin as [->|Hin].
  { destruct (jsonSchemaToZod_object_inv _ _ _ Ht Hz) as (shape & _ & ->).
    destruct (truthy (get schema "description")); by destruct v. }
  apply elem_of_cons in Hin as [->|Hin].
  { rewrite (jsonSchemaToZod_primitive_node _ schema "string" z_string)
      in Hz by (done || set_solver).
    injection Hz as <-.
    destruct (truthy (get schema "description")); by destruct v. }
  apply elem_of_cons in Hin as [->|Hin].
  { rewrite (jsonSchemaToZod_primitive_node _ schema "number" z_number)
      in Hz by (done || set_solver).
    injection Hz as <-.
    destruct (truthy (get schema "description")); by destruct v. }
  apply elem_of_cons in Hin as [->|Hin].
  { rewrite (jsonSchemaToZod_primitive_node _ schema "boolean" z_boolean)
      in Hz by (done || set_solver).
    injection Hz as <-.
    destruct (truthy (get schema "description")); by destruct v. }
  apply list_elem_of_singleton in Hin as ->.
  destruct (jsonSchemaToZod_array_inv _ _ _ Ht Hz) as (element & _ & ->).
  destruct (truthy (get schema "description")); by destruct v.
Qed.

Lemma accepts_object_field shape d v key zf :
  accepts (ZodObject shape d) v = true ->
  assoc key shape = Some zf ->
  exists fields,
    v = JObj fields
    /\ accepts zf (default JUndefined (assoc key fields)) = true.
Proof.
  destruct v; simpl; try done. intros H Ha. exists fields. split; [done|].
  rewrite forallb_forall in H.
  apply (H (key, zf)). apply list_elem_of_In. by apply assoc_elem_of.
Qed.

(** X4.  Every declared property whose schema has a recognised tag is
    mandatory, whether or not [required] lists it: a value the compiled
    object validator accepts is an object that has the property, with a value
    that is neither [null] nor [undefined] and that the property's own
    validator accepts. *)
Theorem jsonSchemaToZod_declared_field_is_mandatory schema z key value tag v :
  unique_keys schema = true ->
  translate schema = Normal z ->
  schema_child schema (Field key) = Some value ->
  tag ∈ recognized_tags ->
  get value "type" = JStr tag ->
  accepts z v = true ->
  exists fields x zc,
    v = JObj fields
    /\ assoc key fields = Some x
    /\ nullish x = false
    /\ translate value = Normal zc
    /\ accepts zc x = true.
Proof.
  intros Hu Hz Hc Hin Ht Hv.
  destruct (jsonSchemaToZod_child _ _ _ _ _ Hu Hz Hc) as (zc & Hzc & Hvc).
  assert (exists shape d, z = ZodObject shape d) as (shape & d & ->).
  { destruct z; try done; eauto. }
  simpl in Hvc.
  destruct (accepts_object_field _ _ _ _ _ Hv Hvc) as (fields & -> & Ha).
  assert (accepts zc (default JUndefined (assoc key fields)) = true) as Ha'.
  { destruct (truthy (get value "description")); [|done].
    by rewrite accepts_describe in Ha. }
  destruct (assoc key fields) as [x|] eqn:Hx; simpl in Ha'.
  - exists fields, x, zc. repeat split; try done.
    destruct (nullish x) eqn:Hn; [|done].
    by rewrite (jsonSchemaToZod_rejects_nullish _ _ _ _ Hin Ht Hzc Hn) in Ha'.
  - by rewrite (jsonSchemaToZod_rejects_nullish _ _ _ JUndefined Hin Ht Hzc)
      in Ha'.
Qed.

Lemma is_Some_assoc_assign {A : Type} (k k' : string) (x : A) o :
  is_Some (assoc k' (assign k x o)) <-> k' = k \/ is_Some (assoc k' o).
Proof.
  destruct (decide (k = k')) as [->|Hne].
  - rewrite assoc_assign_eq. split; [by left|by eauto].
  - rewrite assoc_assign_ne by done. split; [by right|].
    intros [->|H]; done.
Qed.

Lemma forEach_properties_keys (f : JValue -> Fueled ZodType) entries shape0
    shape key :
  forEach_properties f entries shape0 = Ran (Normal shape) ->
  is_Some (assoc key shape)
  <-> is_Some (assoc key shape0) \/ is_Some (assoc key entries).
Proof.
  revert shape0. induction entries as [|[k0 v0] rest IH]; intros shape0; simpl.
  - intros [= ->]. split; [by left|]. by intros [?|[? [=]]].
  - destruct (f v0) as [[zv|e]|]; simpl; try done.
    destruct (getProp v0 "description") as [d|e]; simpl; try done.
    intros H. rewrite (IH _ H), is_Some_assoc_assign.
    destruct (String.eqb k0 key) eqn:E.
    + apply String.eqb_eq in E. subst. split; [by eauto|]. intros _.
      left. by left.
    + apply String.eqb_neq in E. split.
      * intros [[->|?]|?]; [done|by left|by right].
      * intros [?|?]; [left; by right|by right].
Qed.


(** X6.  An [array] node compiles to a validator that accepts exactly the
    arrays whose every element the compiled [items] accepts; without [items]
    (absent or falsy) it accepts every array. *)
Theorem jsonSchemaToZod_array_elementwise schema z :
  get schema "type" = JStr "array" ->
  translate schema = Normal z ->
  exists element,
    (if truthy (get schema "items")
     then translate (get schema "items") = Normal element
     else element = z_any)
    /\ forall v,
        accepts z v
        = match v with
          | JArr items => forallb (accepts element) items
          | _ => false
          end.
Proof.
  intros Ht Hz.
  destruct (jsonSchemaToZod_array_inv _ _ _ Ht Hz) as (element & He & ->).
  exists element. split.
  - destruct (truthy (get schema "items")); [done|]. by injection He as <-.
  - intros v. destruct (truthy (get schema "description")); by destruct v.
Qed.

End TranslatorValidators.

(** ** More on the [Agent] constructor *)

Section AgentConstruction.

Variable ToPropertyKey : JValue -> string.
Variable loadAgentFromFile : string -> Completion AgentDefinition.
Variable loadAgentDefinition : string -> Completion AgentDefinition.

Local Abbreviation resolve :=
  (resolveDefinition loadAgentFromFile loadAgentDefinition).
Local Abbreviation construct process_env :=
  (new_Agent ToPropertyKey process_env loadAgentFromFile loadAgentDefinition).

Lemma resolveDefinition_one_event options :
  length (events (resolve options)) <= 1.
Proof. unfold resolveDefinition. case_ifs; simpl; lia. Qed.

(** X7.  When the loader throws, the constructor throws the same exception,
    having made that one loader call and nothing else: no model client, no
    console output. *)
Theorem new_Agent_loader_failure process_env options e :
  completion (resolve options) = Throw e ->
  construct process_env options = mkEff (events (resolve options)) (Throw e)
  /\ length (events (construct process_env options)) <= 1
  /\ forallb offline (events (construct process_env options)) = true.
Proof.
  intros H.
  assert (construct process_env options
          = mkEff (events (resolve options)) (Throw e)) as ->.
  { unfold new_Agent, mbind, Eff_bind. by rewrite H. }
  split; [done|]. split; [apply resolveDefinition_one_event|].
  apply resolveDefinition_events.
Qed.

(** X8.  With the definition resolved, the provider supported, its variable
    set, and the output schema absent (falsy) or compiling to [z]: the
    constructor succeeds after the loader call, one client construction and
    the runtime construction.  The runtime gets the definition's name,
    description and prompt, its dynamic variables or none, the provider's
    client built with the variable's value and the definition's model, and
    [z] or no validator. *)
Theorem new_Agent_success process_env options agentDef provider credential z :
  (provider, credential) ∈ supported_providers ->
  completion (resolve options) = Normal agentDef ->
  client agentDef = provider ->
  present (process_env !! credential) = true ->
  (truthy (output_schema agentDef) = true ->
   jsonSchemaToZod ToPropertyKey (output_schema agentDef) = Normal z) ->
  exists mc,
    construct process_env options
    = mkEff (events (resolve options) ++ [NewModelClient provider; NewBaseAgent])
        (Normal
           {| agent :=
                {| config :=
                     {| config_name := name agentDef;
                        config_description := def_description agentDef;
                        systemPromptTemplate := system_prompt agentDef;
                        dynamicVariables :=
                          default [] (dynamic_variables agentDef) |};
                   modelClient := mc;
                   outputSchema :=
                     if truthy (output_schema agentDef) then Some z else None;
                   history := [] |} |})
    /\ client_modelType mc = provider
    /\ process_env !! credential = Some (client_apiKey mc)
    /\ match mc with
       | OpenAI_client c => modelName c = model agentDef
       | Anthropic_client c | Firework_client c =>
           provider_modelName c = model agentDef
       end.
Proof.
  intros Hin Hr Hc Hp Hz.
  assert (exists mc,
    selectModelClient process_env agentDef
    = mkEff [NewModelClient provider] (Normal mc)
    /\ client_modelType mc = provider
    /\ process_env !! credential = Some (client_apiKey mc)
    /\ match mc with
       | OpenAI_client c => modelName c = model agentDef
       | Anthropic_client c | Firework_client c =>
           provider_modelName c = model agentDef
       end) as (mc & Hs & Hm).
  { unfold supported_providers in Hin. unfold selectModelClient. rewrite Hc.
    apply elem_of_cons in Hin as [[= -> ->]|Hin].
    { simpl. rewrite Hp. simpl. eexists. split; [reflexivity|].
      repeat split. by apply present_Some. }
    apply elem_of_cons in Hin as [[= -> ->]|Hin].
    { simpl. rewrite Hp. simpl. eexists. split; [reflexivity|].
      repeat split. by apply present_Some. }
    apply list_elem_of_singleton in Hin as [= -> ->].
    simpl. rewrite Hp. simpl. eexists. split; [reflexivity|].
    repeat split. by apply present_Some. }
  exists mc. split; [|done].
  rewrite (new_Agent_resolved _ _ _ _ _ _ Hr).
  unfold mbind, Eff_bind; simpl. rewrite Hs; simpl.
  unfold compileOutputSchema.
  destruct (truthy (output_schema agentDef)); [|done].
  by rewrite Hz.
Qed.

(** X9.  The constructor reads the environment only at the variable of the
    definition's provider: two environments that agree there give the same
    construction. *)
Theorem new_Agent_reads_one_variable env1 env2 options agentDef provider
    credential :
  (provider, credential) ∈ supported_providers ->
  completion (resolve options) = Normal agentDef ->
  client agentDef = provider ->
  env1 !! credential = env2 !! credential ->
  construct env1 options = construct env2 options.
Proof.
  intros Hin Hr Hc He.
  rewrite !(new_Agent_resolved _ _ _ _ _ _ Hr).
  assert (selectModelClient env1 agentDef = selectModelClient env2 agentDef)
    as Hs; [|unfold mbind, Eff_bind; simpl; by rewrite Hs].
  unfold supported_providers in Hin. unfold selectModelClient. rewrite Hc.
  apply elem_of_cons in Hin as [[= -> ->]|Hin]; [simpl; by rewrite He|].
  apply elem_of_cons in Hin as [[= -> ->]|Hin]; [simpl; by rewrite He|].
  apply list_elem_of_singleton in Hin as [= -> ->]. simpl; by rewrite He.
Qed.

End AgentConstruction.

(** ** The OpenAI client *)

Lemma assoc_not_elem_of {A : Type} (o : list (string * A)) k :
  k ∉ o.*1 -> assoc k o = None.
Proof.
  induction o as [|[k0 y] o IH]; simpl; [done|].
  intros [Hne Hnotin]%not_elem_of_cons.
  apply String.eqb_neq in Hne. rewrite String.eqb_sym, Hne. auto.
Qed.

(** In [{...a, ...b}] a property of [b] wins over one of [a]. *)
Lemma assoc_spread (a b : list (string * JValue)) k :
  NoDup b.*1 ->
  assoc k (spread a b)
  = match assoc k b with
    | Some v => Some v
    | None => assoc k a
    end.
Proof.
  unfold spread. revert a. induction b as [|[k0 v0] b IH]; intros a;
    simpl; [done|].
  intros [Hnotin Hnd]%NoDup_cons. rewrite (IH _ Hnd).
  destruct (String.eqb k0 k) eqn:E.
  - apply String.eqb_eq in E. subst k0.
    rewrite (assoc_not_elem_of _ _ Hnotin). apply assoc_assign_eq.
  - apply String.eqb_neq in E. by rewrite assoc_assign_ne.
Qed.

(** X10.  A client is constructed with the parameters given to the
    constructor, and with [temperature] 0.8 and [max_tokens] 1000 where those
    are not given; it has no other default. *)
Theorem new_OpenAIClient_defaultParams apiKey modelName params k :
  NoDup params.*1 ->
  assoc k (defaultParams (new_OpenAIClient apiKey modelName params))
  = match assoc k params with
    | Some v => Some v
    | None =>
        if String.eqb k "temperature" then Some (JNum 0.8%float)
        else if String.eqb k "max_tokens" then Some (JNum 1000%float)
        else None
    end.
Proof.
  intros Hnd. unfold new_OpenAIClient. cbn [defaultParams].
  rewrite (assoc_spread _ _ _ Hnd).
  destruct (assoc k params); [done|]. cbn [assoc].
  by rewrite (String.eqb_sym "temperature"), (String.eqb_sym "max_tokens").
Qed.

(** X11.  [chatCompletion] sends one request and ends as the provider's
    answer does, with its value or with its exception unchanged.  In the
    request a parameter of the call wins over a default parameter of the
    client, and that over the client's model name, which is only the
    [model] of the request when neither gives one. *)
Theorem OpenAIClient_chatCompletion_request respond this params :
  NoDup (defaultParams this).*1 ->
  NoDup params.*1 ->
  exists requestParams,
    OpenAIClient_chatCompletion respond this params
    = mkEff [ChatCompletionsCreate requestParams] (respond requestParams)
    /\ forall k,
        assoc k requestParams
        = match assoc k params with
          | Some v => Some v
          | None =>
              match assoc k (defaultParams this) with
              | Some v => Some v
              | None =>
                  if String.eqb k "model" then Some (JStr (modelName this))
                  else None
              end
          end.
Proof.
  intros Hd Hp.
  exists (spread (spread [("model", JStr (modelName this))]
                    (defaultParams this)) params).
  split.
  - unfold OpenAIClient_chatCompletion, Eff_try_catch, perform. simpl.
    by destruct (respond _).
  - intros k. rewrite (assoc_spread _ _ _ Hp), (assoc_spread _ _ _ Hd).
    cbn [assoc]. by rewrite (String.eqb_sym "model").
Qed.

(** ** More on the [get-tweets] command *)

Lemma prefix_String a p b s :
  String.prefix (String a p) (String b s)
  = if Ascii.ascii_dec a b then String.prefix p s else false.
Proof. reflexivity. Qed.

(** A pattern without a newline matches within the first line or not at
    all. *)
Lemma prefix_first_line p line tail :
  (forall a, In a (String.list_ascii_of_string p) -> a <> Ascii.ascii_of_nat 10) ->
  String.prefix p (line +:+ newline +:+ tail) = String.prefix p line.
Proof.
  revert line. induction p as [|a p IH]; intros line Hp.
  - by destruct line.
  - destruct line as [|b line].
    + change ("" +:+ newline +:+ tail)
        with (String (Ascii.ascii_of_nat 10) tail).
      rewrite prefix_String.
      destruct (Ascii.ascii_dec a (Ascii.ascii_of_nat 10)) as [E|_]; [|done].
      exfalso. apply (Hp a); [by left|done].
    + change (String b line +:+ newline +:+ tail)
        with (String b (line +:+ newline +:+ tail)).
      rewrite !prefix_String.
      destruct (Ascii.ascii_dec a b); [|done].
      apply IH. intros a' Ha'. apply Hp. by right.
Qed.

Lemma startsWith_Error_first_line line rest :
  startsWith (join (line :: rest) newline) "Error" = startsWith line "Error".
Proof.
  destruct rest as [|line' rest]; [done|].
  change (join (line :: line' :: rest) newline)
    with (line +:+ newline +:+ join (line' :: rest) newline).
  apply prefix_first_line.
  intros a Ha. simpl in Ha.
  destruct Ha as [<-|[<-|[<-|[<-|[<-|[]]]]]]; discriminate.
Qed.

Section GetTweetsOutput.

Variable getTweets : JValue -> JValue -> Completion (list string).

(** X12.  When the tweets are fetched, the output is the fetched lines
    joined by newlines behind a mark that the first line alone decides: the
    cross when the first line starts with ["Error"], the memo otherwise, and
    the memo for an empty result. *)
Theorem handler_mark_follows_first_line args username limit result :
  getProp args "username" = Normal username ->
  getProp args "limit" = Normal limit ->
  getTweets username limit = Normal result ->
  handler getTweets args
  = Normal {| output :=
                (if startsWith (hd "" result) "Error" then "❌ " else "📝 ")
                +:+ join result newline |}.
Proof.
  intros Hu Hl Hr. unfold handler. rewrite Hu, Hl. simpl. rewrite Hr. simpl.
  destruct result as [|line rest]; [done|].
  rewrite startsWith_Error_first_line. simpl hd.
  by destruct (startsWith line "Error").
Qed.

End GetTweetsOutput.

(** ** The further properties at the sample inputs *)




(** X4 at [profile_schema]: [nickname], which [required] does not list. *)
Lemma jsonSchemaToZod_declared_field_is_mandatory_witness :
  exists fields x zc,
    JObj [("name", JStr "Ada"); ("nickname", JStr "Countess")] = JObj fields
    /\ assoc "nickname" fields = Some x
    /\ nullish x = false
    /\ jsonSchemaToZod sample_ToPropertyKey (JObj [("type", JStr "string")])
       = Normal zc
    /\ accepts zc x = true.
Proof.
  apply (jsonSchemaToZod_declared_field_is_mandatory sample_ToPropertyKey
           profile_schema
           (z_object [("name", z_string); ("nickname", z_string)])
           "nickname" (JObj [("type", JStr "string")]) "string").
  - by vm_compute.
  - by vm_compute.
  - by vm_compute.
  - unfold recognized_tags. rewrite !elem_of_cons. tauto.
  - reflexivity.
  - by vm_compute.
Defined.


(** X6 at [numbers_schema]. *)
Lemma jsonSchemaToZod_array_elementwise_witness :
  exists element,
    (if truthy (get numbers_schema "items")
     then jsonSchemaToZod sample_ToPropertyKey (get numbers_schema "items")
          = Normal element
     else element = z_any)
    /\ forall v,
        accepts (z_array z_number) v
        = match v with
          | JArr items => forallb (accepts element) items
          | _ => false
          end.
Proof.
  apply (jsonSchemaToZod_array_elementwise sample_ToPropertyKey
           numbers_schema (z_array z_number)).
  - reflexivity.
  - by vm_compute.
Defined.

(** X7 at an agent the registry does not have. *)
Lemma new_Agent_loader_failure_witness :
  new_Agent sample_ToPropertyKey sample_env sample_loadAgentFromFile
    sample_loadAgentDefinition (by_name "nobody")
  = mkEff [LoadAgentDefinition "nobody"]
      (Throw (Error "Agent not found: nobody")).
Proof.
  apply (proj1 (new_Agent_loader_failure sample_ToPropertyKey
                  sample_loadAgentFromFile sample_loadAgentDefinition
                  sample_env (by_name "nobody")
                  (Error "Agent not found: nobody") eq_refl)).
Defined.

(** X8 at the [profiler], loaded from its file. *)
Lemma new_Agent_success_witness :
  exists mc,
    new_Agent sample_ToPropertyKey two_keys_env profile_loadAgentFromFile
      sample_loadAgentDefinition (by_path "agents/profiler.yaml")
    = mkEff [LoadAgentFromFile "agents/profiler.yaml";
             NewModelClient "anthropic"; NewBaseAgent]
        (Normal
           {| agent :=
                {| config :=
                     {| config_name := "profiler";
                        config_description := "Extracts a profile";
                        systemPromptTemplate :=
                          "Extract the profile of {{person}}.";
                        dynamicVariables := [("person", "the author")] |};
                   modelClient := mc;
                   outputSchema :=
                     Some (z_object [("name", z_string);
                                     ("nickname", z_string)]);
                   history := [] |} |})
    /\ client_modelType mc = "anthropic"
    /\ two_keys_env !! "ANTHROPIC_API_KEY" = Some (client_apiKey mc)
    /\ match mc with
       | OpenAI_client c => modelName c = "claude-3-5-sonnet"
       | Anthropic_client c | Firework_client c =>
           provider_modelName c = "claude-3-5-sonnet"
       end.
Proof.
  assert (("anthropic", "ANTHROPIC_API_KEY") ∈ supported_providers) as Hin.
  { unfold supported_providers. rewrite !elem_of_cons. tauto. }
  apply (new_Agent_success sample_ToPropertyKey profile_loadAgentFromFile
           sample_loadAgentDefinition two_keys_env
           (by_path "agents/profiler.yaml") profiler
           "anthropic" "ANTHROPIC_API_KEY"
           (z_object [("name", z_string); ("nickname", z_string)])
           Hin eq_refl eq_refl).
  - by vm_compute.
  - intros _. by vm_compute.
Defined.

(** X9 at the [summarizer]: a second variable changes nothing. *)
Lemma new_Agent_reads_one_variable_witness :
  sample_env !! "OPENAI_API_KEY" = two_keys_env !! "OPENAI_API_KEY"
  /\ new_Agent sample_ToPropertyKey sample_env sample_loadAgentFromFile
       sample_loadAgentDefinition (by_name "summarizer")
     = new_Agent sample_ToPropertyKey two_keys_env sample_loadAgentFromFile
         sample_loadAgentDefinition (by_name "summarizer").
Proof.
  assert (("openai", "OPENAI_API_KEY") ∈ supported_providers) as Hin.
  { unfold supported_providers. rewrite !elem_of_cons. tauto. }
  assert (sample_env !! "OPENAI_API_KEY" = two_keys_env !! "OPENAI_API_KEY")
    as He by (by vm_compute).
  split; [exact He|].
  exact (new_Agent_reads_one_variable sample_ToPropertyKey
           sample_loadAgentFromFile sample_loadAgentDefinition
           sample_env two_keys_env (by_name "summarizer") summarizer
           "openai" "OPENAI_API_KEY" Hin eq_refl eq_refl He).
Defined.

(** X10 at [cool_params]: the given temperature, the default token limit. *)
Lemma new_OpenAIClient_defaultParams_witness :
  assoc "temperature"
    (defaultParams (new_OpenAIClient "sk-test" "gpt-4o" cool_params))
  = Some (JNum 0.25%float)
  /\ assoc "max_tokens"
       (defaultParams (new_OpenAIClient "sk-test" "gpt-4o" cool_params))
     = Some (JNum 1000%float).
Proof.
  assert (NoDup cool_params.*1) as Hnd.
  { apply (bool_decide_eq_true_1 (NoDup _)). by vm_compute. }
  split.
  - exact (new_OpenAIClient_defaultParams "sk-test" "gpt-4o" cool_params
             "temperature" Hnd).
  - exact (new_OpenAIClient_defaultParams "sk-test" "gpt-4o" cool_params
             "max_tokens" Hnd).
Defined.

(** X11 at a client with [cool_params] called with [call_params]. *)
Lemma OpenAIClient_chatCompletion_request_witness :
  exists requestParams,
    OpenAIClient_chatCompletion echo_model
      (new_OpenAIClient "sk-test" "gpt-4o" cool_params) call_params
    = mkEff [ChatCompletionsCreate requestParams] (echo_model requestParams)
    /\ assoc "model" requestParams = Some (JStr "gpt-4o")
    /\ assoc "temperature" requestParams = Some (JNum 0.25%float)
    /\ assoc "max_tokens" requestParams = Some (JNum 64%float).
Proof.
  assert (NoDup (defaultParams
                   (new_OpenAIClient "sk-test" "gpt-4o" cool_params)).*1)
    as Hd.
  { apply (bool_decide_eq_true_1 (NoDup _)). by vm_compute. }
  assert (NoDup call_params.*1) as Hp.
  { apply (bool_decide_eq_true_1 (NoDup _)). by vm_compute. }
  destruct (OpenAIClient_chatCompletion_request echo_model
              (new_OpenAIClient "sk-test" "gpt-4o" cool_params) call_params
              Hd Hp) as (requestParams & Heq & Hk).
  exists requestParams. split; [exact Heq|].
  split; [|split].
  - exact (Hk "model").
  - exact (Hk "temperature").
  - exact (Hk "max_tokens").
Defined.

(** X12 at the two users [sample_getTweets] knows. *)
Lemma handler_mark_follows_first_line_witness :
  handler sample_getTweets (JObj [("username", JStr "ada")])
  = Normal {| output := "📝 first tweet" +:+ newline +:+ "second tweet" |}
  /\ handler sample_getTweets (JObj [("username", JStr "nobody")])
     = Normal {| output := "❌ Error: user not found" |}.
Proof.
  split.
  - exact (handler_mark_follows_first_line sample_getTweets
             (JObj [("username", JStr "ada")]) (JStr "ada") JUndefined
             ["first tweet"; "second tweet"] eq_refl eq_refl eq_refl).
  - exact (handler_mark_follows_first_line sample_getTweets
             (JObj [("username", JStr "nobody")]) (JStr "nobody") JUndefined
             ["Error: user not found"] eq_refl eq_refl eq_refl).
Defined.
